(** * Verification of flytekit's OAuth2 authorization-code + PKCE client

    Shallow embedding of [flytekit/clients/auth/auth_client.py]: the PKCE
    generator, the one-shot loopback callback server, the per-endpoint
    singleton metaclass, the [AuthorizationClient] state (its parameter
    dict, its PKCE verifier and state token) and the token exchanges.

    Python values are modelled as [pyval]; Python exceptions as [exn];
    [dict]s whose order matters (urlencode of the parameter dict) as
    association lists with Python's update semantics; the singleton
    registry as a [gmap] from the key to a location of a heap of client
    objects, so that aliasing of the shared instance is explicit. *)

From Stdlib Require Import ZArith Lia Ascii String.
From stdpp Require Import base list gmap strings pretty.

Open Scope list_scope.
Open Scope string_scope.

(* ------------------------------------------------------------------ *)
(** ** Python values, exceptions, dicts *)

Set Warnings "-register-all".

(** The Python objects this code handles: [None], booleans, ints,
    strings, lists and dicts (what [resp.json()] can return). *)
Inductive pyval :=
| PNone
| PBool (b : bool)
| PInt (z : Z)
| PStr (s : string)
| PList (l : list pyval)
| PDict (d : list (string * pyval)).

(** The exceptions raised on the paths we model. *)
Inductive exn :=
| ValueError (msg : string)
| KeyError (key : string)
| TypeError (msg : string)
| UnboundLocalError (name : string)
| Exception (msg : string)
| OSError (msg : string)
| AccessTokenNotFoundError (msg : string).

(** Result of a Python call: a value or a raised exception. *)
Inductive result (A : Type) :=
| Ok (a : A)
| Err (e : exn).
Arguments Ok {A} a.
Arguments Err {A} e.

(** [d.get(k)]: a dict is kept with pairwise distinct keys. *)
Fixpoint dict_get {V} (k : string) (d : list (string * V)) : option V :=
  match d with
  | [] => None
  | (k', v) :: d' => if String.eqb k k' then Some v else dict_get k d'
  end.

(** [d[k] = v]: an existing key keeps its position, a new key is
    appended (Python 3.7+ insertion order). *)
Fixpoint dict_set {V} (k : string) (v : V) (d : list (string * V))
  : list (string * V) :=
  match d with
  | [] => [(k, v)]
  | (k', v') :: d' =>
      if String.eqb k k' then (k, v) :: d' else (k', v') :: dict_set k v d'
  end.

(** [d.update(e)]: the entries of [e] are set in order. *)
Definition dict_update {V} (d e : list (string * V)) : list (string * V) :=
  fold_left (fun acc kv => dict_set kv.1 kv.2 acc) e d.

(** [dict(pairs)]: a later pair overrides an earlier one with the same key. *)
Definition dict_of_pairs {V} (pairs : list (string * V)) : list (string * V) :=
  dict_update [] pairs.

(** [k in d] *)
Definition dict_contains {V} (k : string) (d : list (string * V)) : bool :=
  match dict_get k d with Some _ => true | None => false end.

(* ------------------------------------------------------------------ *)
(** ** Strings: [re.sub] with a negated class, [str.strip], [str.replace] *)

Definition chars (s : string) : list ascii := list_ascii_of_string s.
Definition of_chars (l : list ascii) : string := string_of_list_ascii l.

Definition is_upper (c : ascii) : bool :=
  let n := nat_of_ascii c in (65 <=? n)%nat && (n <=? 90)%nat.
Definition is_lower (c : ascii) : bool :=
  let n := nat_of_ascii c in (97 <=? n)%nat && (n <=? 122)%nat.
Definition is_digit (c : ascii) : bool :=
  let n := nat_of_ascii c in (48 <=? n)%nat && (n <=? 57)%nat.
Definition is_alnum (c : ascii) : bool := is_upper c || is_lower c || is_digit c.

Definition in_chars (c : ascii) (set : string) : bool :=
  existsb (fun d => Ascii.eqb c d) (chars set).

(** [re.sub(r"[^a-zA-Z0-9_\-.~]+", "", s)]: deleting every maximal run of
    characters outside the class deletes exactly those characters. *)
Definition verifier_char (c : ascii) : bool := is_alnum c || in_chars c "_-.~".
Definition clean_verifier (s : string) : string :=
  of_chars (List.filter verifier_char (chars s)).

(** [re.sub("[^a-zA-Z0-9-_.,]+", "", s)]: after the range [0-9] the
    [-] is a literal, as [re] parses the class. *)
Definition state_char (c : ascii) : bool := is_alnum c || in_chars c "-_.,".
Definition clean_state (s : string) : string :=
  of_chars (List.filter state_char (chars s)).

(** [s.replace(c, "")] for a one-character [c]. *)
Definition remove_char (c : ascii) (s : string) : string :=
  of_chars (List.filter (fun d => negb (Ascii.eqb c d)) (chars s)).

(** [s.strip(cs)]: drop leading and trailing characters in [cs]. *)
Fixpoint lstrip_l (cs : string) (l : list ascii) : list ascii :=
  match l with
  | [] => []
  | c :: l' => if in_chars c cs then lstrip_l cs l' else l
  end.
Definition py_strip (cs s : string) : string :=
  of_chars (rev (lstrip_l cs (rev (lstrip_l cs (chars s))))).

(** [repr] of a [str] and of a [bytes]: the quote is ['] unless the text
    has a ['] and no double quote; the quote and the backslash are
    escaped, tab, line feed and carriage return are written [\t \n \r],
    and the characters [hexesc] selects [\xhh]. *)
Definition sq : ascii := "039"%char.
Definition dq_char : ascii := "034"%char.
Definition backslash : ascii := "092"%char.

Definition hex_lower (n : nat) : ascii := nth n (chars "0123456789abcdef") "0"%char.

Definition repr_escape (q : ascii) (hexesc : ascii -> bool) (c : ascii) : list ascii :=
  let n := nat_of_ascii c in
  if Ascii.eqb c q || Ascii.eqb c backslash then [backslash; c]
  else if (n =? 9)%nat then [backslash; "t"%char]
  else if (n =? 10)%nat then [backslash; "n"%char]
  else if (n =? 13)%nat then [backslash; "r"%char]
  else if hexesc c then [backslash; "x"%char; hex_lower (n / 16); hex_lower (n mod 16)]
  else [c].

Definition repr_quote (l : list ascii) : ascii :=
  if existsb (Ascii.eqb sq) l && negb (existsb (Ascii.eqb dq_char) l) then dq_char else sq.

Definition repr_body (hexesc : ascii -> bool) (l : list ascii) : list ascii :=
  let q := repr_quote l in (q :: flat_map (repr_escape q hexesc) l ++ [q])%list.

(** Not printable for [str.isprintable], below U+0100: the controls,
    U+00A0 and U+00AD. *)
Definition str_hexesc (c : ascii) : bool :=
  let n := nat_of_ascii c in
  (n <? 32)%nat || ((127 <=? n)%nat && (n <=? 160)%nat) || (n =? 173)%nat.

(** A [bytes] repr escapes every byte outside [0x20 .. 0x7e]. *)
Definition bytes_hexesc (c : ascii) : bool :=
  let n := nat_of_ascii c in (n <? 32)%nat || (126 <? n)%nat.

(** [repr(s)] of a [str] whose characters are below U+0100. *)
Definition py_str_repr (s : string) : string := of_chars (repr_body str_hexesc (chars s)).

(** [repr(b)] of a [bytes], one character per byte. *)
Definition bytes_repr (b : string) : string :=
  of_chars ("b"%char :: repr_body bytes_hexesc (chars b)).

(* ------------------------------------------------------------------ *)
(** ** [base64.urlsafe_b64encode] *)

Definition b64_alphabet : list ascii :=
  chars "ABCDEFGHIJKLMNOPQRSTUVWXYZabcdefghijklmnopqrstuvwxyz0123456789-_".

(** The character of a 6-bit group. *)
Definition b64_char (x : Z) : ascii :=
  nth (Z.to_nat (Z.land x 63)) b64_alphabet "A"%char.

Definition byte_Z (b : Byte.byte) : Z := Z.of_N (Byte.to_N b).

(** Groups of three bytes give four characters; a final group of one or
    two bytes is padded with [=]. *)
Fixpoint urlsafe_b64encode (bs : list Byte.byte) : list ascii :=
  match bs with
  | b1 :: b2 :: b3 :: rest =>
      let n := Z.lor (Z.lor (Z.shiftl (byte_Z b1) 16) (Z.shiftl (byte_Z b2) 8))
                     (byte_Z b3) in
      b64_char (Z.shiftr n 18) :: b64_char (Z.shiftr n 12)
        :: b64_char (Z.shiftr n 6) :: b64_char n :: urlsafe_b64encode rest
  | [b1; b2] =>
      let n := Z.lor (Z.shiftl (byte_Z b1) 16) (Z.shiftl (byte_Z b2) 8) in
      [b64_char (Z.shiftr n 18); b64_char (Z.shiftr n 12);
       b64_char (Z.shiftr n 6); "="%char]
  | [b1] =>
      let n := Z.shiftl (byte_Z b1) 16 in
      [b64_char (Z.shiftr n 18); b64_char (Z.shiftr n 12); "="%char; "="%char]
  | [] => []
  end.

(* ------------------------------------------------------------------ *)
(** ** PKCE generator *)

Definition _code_verifier_length : nat := 64.
Definition _random_seed_length : nat := 40.

Definition msg_verifier_too_short : string :=
  "Verifier too short. number of bytes must be > 30.".
Definition msg_verifier_too_long : string :=
  "Verifier too long. number of bytes must be < 97.".

(** [_generate_code_verifier()], with [os.urandom(_code_verifier_length)]
    as its argument [urandom]. *)
Definition _generate_code_verifier (urandom : list Byte.byte) : result string :=
  let code_verifier := of_chars (urlsafe_b64encode urandom) in
  let code_verifier := clean_verifier code_verifier in
  if (String.length code_verifier <? 43)%nat then Err (ValueError msg_verifier_too_short)
  else if (128 <? String.length code_verifier)%nat then Err (ValueError msg_verifier_too_long)
  else Ok code_verifier.

(** [_generate_state_parameter()], with [os.urandom(_random_seed_length)]
    as its argument. *)
Definition _generate_state_parameter (urandom : list Byte.byte) : string :=
  clean_state (of_chars (urlsafe_b64encode urandom)).

(* ------------------------------------------------------------------ *)
(** ** [urllib.parse]: [urlparse], [urlunparse], [quote_plus], [unquote_plus],
    [parse_qsl], [urlencode] *)

(** The IP version [ipaddress.ip_address(h)] recognises. *)
Inductive ip_version := IPv4 | IPv6.

(** What the behaviour of the module depends on outside Python code:
    the parsers of [ipaddress] and [unicodedata] that [urllib.parse]
    consults, and what the operating system's [bind] and [listen] do.
    Every statement below holds for any platform. *)
Record platform := {
  (** [ipaddress.ip_address(h)]: the version of the address, [None]
      when it raises [ValueError]. *)
  ip_address : string -> option ip_version;
  (** [_checknetloc(netloc)] for a netloc that is not ASCII (its check
      of the NFKC normalisation). *)
  checknetloc_nfkc : string -> option exn;
  (** [bind((host, port))] then [listen()] on an [AF_INET] socket with a
      [str] host and an [int] port: the exception raised ([OSError] for a
      port in use, [socket.gaierror] for a host that does not resolve to
      an IPv4 address), [None] when both succeed. *)
  os_bind : string -> Z -> option exn
}.

(** [urlparse(...)] of the Python 3.11 standard library ([urlsplit] with
    its security checks, then [_splitparams]). *)
Record ParseResult := {
  scheme : string;
  netloc : string;
  path : string;
  params : string;
  query : string;
  fragment : string
}.

(** [s.split(c, 1)] when [c in s]. *)
Fixpoint split_first (c : ascii) (l : list ascii) : option (list ascii * list ascii) :=
  match l with
  | [] => None
  | d :: l' =>
      if Ascii.eqb c d then Some ([], l')
      else match split_first c l' with
           | Some (a, b) => Some (d :: a, b)
           | None => None
           end
  end.

(** [s.rpartition(c)[2]]: what follows the last [c], all of [s] without one. *)
Definition after_last (c : ascii) (l : list ascii) : list ascii :=
  match split_first c (rev l) with Some (hi, _) => rev hi | None => l end.

Definition is_empty {A} (l : list A) : bool :=
  match l with [] => true | _ => false end.

Definition scheme_char (c : ascii) : bool := is_alnum c || in_chars c "+-.".

Definition lower_char (c : ascii) : ascii :=
  if is_upper c then ascii_of_nat (nat_of_ascii c + 32) else c.

Definition is_hex (c : ascii) : bool :=
  is_digit c || in_chars c "abcdefABCDEF".

Definition is_ascii (c : ascii) : bool := (nat_of_ascii c <? 128)%nat.

(** [_WHATWG_C0_CONTROL_OR_SPACE]: the characters [url.lstrip] removes. *)
Definition c0_control_or_space (c : ascii) : bool := (nat_of_ascii c <=? 32)%nat.

(** [_UNSAFE_URL_BYTES_TO_REMOVE]: tab, carriage return and line feed. *)
Definition unsafe_url_byte (c : ascii) : bool :=
  let n := nat_of_ascii c in (n =? 9)%nat || (n =? 13)%nat || (n =? 10)%nat.

Fixpoint lstrip_by (p : ascii -> bool) (l : list ascii) : list ascii :=
  match l with
  | [] => []
  | c :: l' => if p c then lstrip_by p l' else l
  end.

(** [_splitnetloc(url, 2)]: the netloc runs up to the first of [/?#]. *)
Fixpoint take_netloc (l : list ascii) : list ascii * list ascii :=
  match l with
  | [] => ([], [])
  | c :: l' =>
      if in_chars c "/?#" then ([], l)
      else let '(a, b) := take_netloc l' in (c :: a, b)
  end.

(** [re.match(r"\Av[a-fA-F0-9]+\..+\Z", "v" + rest)]: [.] matches any
    character but a newline. *)
Definition ipvfuture_ok (rest : list ascii) : bool :=
  match split_first "." rest with
  | Some (hx, tl) =>
      negb (is_empty hx) && forallb is_hex hx && negb (is_empty tl)
      && forallb (fun c => negb (nat_of_ascii c =? 10)%nat) tl
  | None => false
  end.

(** [_check_bracketed_host(hostname)] *)
Definition _check_bracketed_host (pf : platform) (h : list ascii) : option exn :=
  match h with
  | "v"%char :: rest =>
      if ipvfuture_ok rest then None else Some (ValueError "IPvFuture address is invalid")
  | _ =>
      match ip_address pf (of_chars h) with
      | None =>
          Some (ValueError (py_str_repr (of_chars h)
                            ++ " does not appear to be an IPv4 or IPv6 address"))
      | Some IPv4 => Some (ValueError "An IPv4 address cannot be in brackets")
      | Some IPv6 => None
      end
  end.

(** [_check_bracketed_netloc(netloc)] *)
Definition _check_bracketed_netloc (pf : platform) (net : list ascii) : option exn :=
  let hostname_and_port := after_last "@" net in
  match split_first "[" hostname_and_port with
  | Some (before_bracket, bracketed) =>
      if negb (is_empty before_bracket) then Some (ValueError "Invalid IPv6 URL")
      else
        let '(h, prt) :=
          match split_first "]" bracketed with
          | Some (a, b) => (a, b)
          | None => (bracketed, [])
          end in
        match prt with
        | [] => _check_bracketed_host pf h
        | ":"%char :: _ => _check_bracketed_host pf h
        | _ :: _ => Some (ValueError "Invalid IPv6 URL")
        end
  | None =>
      let h := match split_first ":" hostname_and_port with
               | Some (a, _) => a
               | None => hostname_and_port
               end in
      _check_bracketed_host pf h
  end.

(** [_checknetloc(netloc)] *)
Definition _checknetloc (pf : platform) (net : list ascii) : option exn :=
  if is_empty net || forallb is_ascii net then None
  else checknetloc_nfkc pf (of_chars net).

Definition uses_params : list string :=
  [""; "ftp"; "hdl"; "prospero"; "http"; "imap"; "https"; "shttp"; "rtsp";
   "rtspu"; "sip"; "sips"; "mms"; "sftp"; "tel"].

(** [_splitparams(url)]: the [;params] of the last path segment. *)
Definition _splitparams (l : list ascii) : list ascii * list ascii :=
  match split_first "/" (rev l) with
  | Some (last_rev, init_rev) =>
      (* l = rev init_rev ++ "/" :: rev last_rev, with no "/" in rev last_rev *)
      match split_first ";" (rev last_rev) with
      | Some (a, b) => ((rev init_rev ++ "/"%char :: a)%list, b)
      | None => (l, [])
      end
  | None =>
      match split_first ";" l with
      | Some (a, b) => (a, b)
      | None => (firstn (length l - 1) l, l)   (* url.find(";") = -1 *)
      end
  end.

(** [urlparse(url)] of a [str]. *)
Definition urlparse (pf : platform) (url : string) : result ParseResult :=
  let l := lstrip_by c0_control_or_space (chars url) in
  let l := List.filter (fun c => negb (unsafe_url_byte c)) l in
  let '(sch, rest) :=
    match split_first ":" l with
    | Some (s, r) =>
        match s with
        | c0 :: _ =>
            if (is_upper c0 || is_lower c0) && forallb scheme_char s
            then (map lower_char s, r) else ([], l)
        | [] => ([], l)
        end
    | None => ([], l)
    end in
  let split_net :=
    match rest with
    | "/"%char :: "/"%char :: r =>
        let '(net, rest') := take_netloc r in
        let ob := existsb (Ascii.eqb "[") net in
        let cb := existsb (Ascii.eqb "]") net in
        if (ob && negb cb) || (cb && negb ob) then Err (ValueError "Invalid IPv6 URL")
        else if ob && cb then
          match _check_bracketed_netloc pf net with
          | Some e => Err e
          | None => Ok (net, rest')
          end
        else Ok (net, rest')
    | _ => Ok ([], rest)
    end in
  match split_net with
  | Err e => Err e
  | Ok (net, rest) =>
      let '(rest, frag) :=
        match split_first "#" rest with Some (a, b) => (a, b) | None => (rest, []) end in
      let '(p, q) :=
        match split_first "?" rest with Some (a, b) => (a, b) | None => (rest, []) end in
      match _checknetloc pf net with
      | Some e => Err e
      | None =>
          let '(p, prm) :=
            if existsb (String.eqb (of_chars sch)) uses_params && existsb (Ascii.eqb ";") p
            then _splitparams p else (p, []) in
          Ok {| scheme := of_chars sch; netloc := of_chars net; path := of_chars p;
                params := of_chars prm; query := of_chars q; fragment := of_chars frag |}
      end
  end.

(** [urlparse(None)]: [_coerce_args] decodes [None] as empty bytes, so every
    component is empty. *)
Definition empty_parse : ParseResult :=
  {| scheme := ""; netloc := ""; path := ""; params := ""; query := "";
     fragment := "" |}.

(** [_hostinfo]: the host and the port text of the netloc. *)
Definition _hostinfo (r : ParseResult) : list ascii * option (list ascii) :=
  let hostinfo := after_last "@" (chars (netloc r)) in
  let '(h, prt) :=
    match split_first "[" hostinfo with
    | Some (_, bracketed) =>
        match split_first "]" bracketed with
        | Some (h, after) =>
            (h, match split_first ":" after with Some (_, p) => p | None => [] end)
        | None => (bracketed, [])
        end
    | None =>
        match split_first ":" hostinfo with Some (h, p) => (h, p) | None => (hostinfo, []) end
    end in
  (h, if is_empty prt then None else Some prt).

(** [.hostname]: lower-cased up to a [%] zone, which is kept as it is;
    [None] when empty. *)
Definition hostname (r : ParseResult) : option string :=
  let h := fst (_hostinfo r) in
  if is_empty h then None
  else Some (of_chars (match split_first "%" h with
                       | Some (a, zone) => (map lower_char a ++ "%"%char :: zone)%list
                       | None => map lower_char h
                       end)).

Definition digits_value (l : list ascii) : Z :=
  fold_left (fun acc c => acc * 10 + Z.of_nat (nat_of_ascii c - 48))%Z l 0%Z.

(** [.port] *)
Definition port (r : ParseResult) : result (option Z) :=
  match snd (_hostinfo r) with
  | None => Ok None
  | Some p =>
      if forallb is_digit p then
        let n := digits_value p in
        if (n <=? 65535)%Z then Ok (Some n) else Err (ValueError "Port out of range 0-65535")
      else Err (ValueError ("Port could not be cast to integer value as "
                            ++ py_str_repr (of_chars p)))
  end.

Definition uses_netloc : list string :=
  [""; "ftp"; "http"; "gopher"; "nntp"; "telnet"; "imap"; "wais"; "file";
   "mms"; "https"; "shttp"; "snews"; "prospero"; "rtsp"; "rtspu"; "rsync";
   "svn"; "svn+ssh"; "sftp"; "nfs"; "git"; "git+ssh"; "ws"; "wss"].

(** [urlunparse((scheme, netloc, url, None, query, None))]. *)
Definition urlunparse (sch net url qry : string) : string :=
  let url :=
    if negb (String.eqb net "") ||
       (negb (String.eqb sch "") && existsb (String.eqb sch) uses_netloc
        && negb (Stdlib.Strings.String.prefix "//" url))
    then
      let url := if negb (String.eqb url "") && negb (Stdlib.Strings.String.prefix "/" url)
                 then "/" ++ url else url in
      "//" ++ net ++ url
    else url in
  let url := if String.eqb sch "" then url else sch ++ ":" ++ url in
  if String.eqb qry "" then url else url ++ "?" ++ qry.

Definition hex_digit (n : nat) : ascii :=
  nth n (chars "0123456789ABCDEF") "0"%char.

(** [quote_plus(s)]: [safe=""], always-safe [A-Za-z0-9_.-~], a space
    becomes [+], every other byte [%XX]. *)
Definition quote_plus_char (c : ascii) : list ascii :=
  if is_alnum c || in_chars c "_.-~" then [c]
  else if Ascii.eqb c " "%char then ["+"%char]
  else let n := nat_of_ascii c in
       ["%"%char; hex_digit (n / 16); hex_digit (n mod 16)].
Definition quote_plus (s : string) : string :=
  of_chars (flat_map quote_plus_char (chars s)).

Definition hex_value (c : ascii) : option nat :=
  let n := nat_of_ascii c in
  if is_digit c then Some (n - 48)
  else if (65 <=? n)%nat && (n <=? 70)%nat then Some (n - 55)
  else if (97 <=? n)%nat && (n <=? 102)%nat then Some (n - 87)
  else None.

(** [unquote_plus(s)]: [+] is a space, [%XX] the byte [XX]. *)
Fixpoint unquote_plus_l (l : list ascii) : list ascii :=
  match l with
  | [] => []
  | c :: l' =>
      if Ascii.eqb c "%"%char then
        match l' with
        | h1 :: h2 :: l'' =>
            match hex_value h1, hex_value h2 with
            | Some a, Some b => ascii_of_nat (a * 16 + b) :: unquote_plus_l l''
            | _, _ => c :: unquote_plus_l l'
            end
        | _ => c :: unquote_plus_l l'
        end
      else if Ascii.eqb c "+"%char then " "%char :: unquote_plus_l l'
      else c :: unquote_plus_l l'
  end.
Definition unquote_plus (s : list ascii) : string := of_chars (unquote_plus_l s).

(** [s.split(c)] *)
Fixpoint split_all (c : ascii) (l : list ascii) : list (list ascii) :=
  match l with
  | [] => [[]]
  | d :: l' =>
      if Ascii.eqb c d then [] :: split_all c l'
      else match split_all c l' with
           | w :: ws => (d :: w) :: ws
           | [] => [[d]]
           end
  end.

(** [parse_qsl(qs)] with its defaults: fields split on [&]; a field
    without [=] or with an empty value is skipped. *)
Definition parse_qsl (qs : string) : list (string * string) :=
  omap (fun field =>
          match split_first "=" field with
          | Some (k, v) =>
              match v with [] => None | _ => Some (unquote_plus k, unquote_plus v) end
          | None => None
          end)
       (split_all "&" (chars qs)).

(** [str(v)] of a parameter value, [None] or a [str]. *)
Definition py_str_opt (v : option string) : string :=
  match v with None => "None" | Some s => s end.

(** [urlencode(d)]: [quote_plus(k) + "=" + quote_plus(str(v))], joined by [&]. *)
Definition urlencode_fields (d : list (string * option string)) : list string :=
  map (fun kv => quote_plus kv.1 ++ "=" ++ quote_plus (py_str_opt kv.2)) d.
Definition urlencode (d : list (string * option string)) : string :=
  String.concat "&" (urlencode_fields d).

(* ------------------------------------------------------------------ *)
(** ** Data of the client *)

Record AuthorizationCode := {
  code : string;
  state : string
}.

Record EndpointMetadata := {
  md_endpoint : option string;
  success_html : option string;
  failure_html : option string
}.

(** The attributes [AuthorizationClient.__init__] sets. [_params] holds
    [str] or [None] values; [_verify] is [None], a bool or a path. *)
Record AuthorizationClient := {
  _endpoint : string;
  _auth_endpoint : string;
  _remote : EndpointMetadata;
  _token_endpoint : string;
  _client_id : option string;
  _scopes : list string;
  _redirect_uri : option string;
  _code_verifier : string;
  _code_challenge : string;
  _state : string;
  _verify : pyval;
  _headers : list (string * string);
  _params : list (string * option string)
}.

(** [self._params = p] (the only attribute assigned after [__init__]). *)
Definition set_params (c : AuthorizationClient) (p : list (string * option string))
  : AuthorizationClient :=
  {| _endpoint := _endpoint c; _auth_endpoint := _auth_endpoint c;
     _remote := _remote c; _token_endpoint := _token_endpoint c;
     _client_id := _client_id c; _scopes := _scopes c;
     _redirect_uri := _redirect_uri c; _code_verifier := _code_verifier c;
     _code_challenge := _code_challenge c; _state := _state c;
     _verify := _verify c; _headers := _headers c; _params := p |}.

(** [" ".join(s.strip("' ") for s in self._scopes).strip("[]'")] *)
Definition scope_param (scopes : list string) : string :=
  py_strip "[]'" (String.concat " " (map (py_strip "' ") scopes)).

(** [s.encode("utf-8")] of an ASCII string. *)
Definition encode_utf8 (s : string) : list Byte.byte :=
  map (fun c => match Byte.of_N (N_of_ascii c) with Some b => b | None => Byte.x00 end)
      (chars s).

(** The arguments of an [AuthorizationClient(...)] call: [ca_args] are the
    positional arguments, which bind [endpoint], [auth_endpoint] and
    [token_endpoint] in this order (calls with more positional arguments
    are not modelled); [ca_kwargs] are the other keyword arguments: any of
    those three, or a name [__init__] does not have; the remaining
    parameters are passed by keyword, [None] (or the
    empty list for [scopes], [or []]) when omitted. *)
Record call_args := {
  ca_args : list string;
  ca_kwargs : list (string * string);
  ca_scopes : list string;
  ca_client_id : option string;
  ca_redirect_uri : option string;
  ca_endpoint_metadata : option EndpointMetadata;
  ca_verify : pyval
}.

(** The parameters of [AuthorizationClient.__init__] after [self]. *)
Definition init_params : list string :=
  ["endpoint"; "auth_endpoint"; "token_endpoint"; "scopes"; "client_id";
   "redirect_uri"; "endpoint_metadata"; "verify"].
Definition endpoint_params : list string := ["endpoint"; "auth_endpoint"; "token_endpoint"].

Definition init_qualname : string := "AuthorizationClient.__init__".

Fixpoint index_of (x : string) (l : list string) : option nat :=
  match l with
  | [] => None
  | y :: l' => if String.eqb x y then Some 0 else option_map S (index_of x l')
  end.

(** The interpreter's check of the keyword arguments, in order: a name
    that is no parameter, or one already bound by position, raises. *)
Fixpoint keyword_error (nargs : nat) (kws : list (string * string)) : option exn :=
  match kws with
  | [] => None
  | (k, _) :: kws' =>
      match index_of k init_params with
      | None =>
          Some (TypeError (init_qualname ++ "() got an unexpected keyword argument '"
                           ++ k ++ "'"))
      | Some i =>
          if (i <? nargs)%nat then
            Some (TypeError (init_qualname ++ "() got multiple values for argument '"
                             ++ k ++ "'"))
          else keyword_error nargs kws'
      end
  end.

Definition quoted (n : string) : string := "'" ++ n ++ "'".

(** The list of missing names in the interpreter's message. *)
Definition format_missing (names : list string) : string :=
  match names with
  | [a] => quoted a
  | [a; b] => quoted a ++ " and " ++ quoted b
  | _ =>
      match rev names with
      | z :: y :: xs =>
          String.concat ", " (map quoted (rev xs) ++ [quoted y]) ++ ", and " ++ quoted z
      | _ => ""
      end
  end.

(** The required parameters bound neither by position nor by keyword. *)
Definition missing_params (ca : call_args) : list string :=
  List.filter (fun n =>
                 match index_of n endpoint_params with
                 | Some i => (length (ca_args ca) <=? i)%nat
                 | None => false
                 end && negb (dict_contains n (ca_kwargs ca)))
              endpoint_params.

(** The value bound to the [i]-th parameter [name]. *)
Definition bound_value (ca : call_args) (i : nat) (name : string) : string :=
  match nth_error (ca_args ca) i with
  | Some v => v
  | None => match dict_get name (ca_kwargs ca) with Some v => v | None => "" end
  end.

(** Python's binding of [endpoint], [auth_endpoint] and [token_endpoint]
    when [__init__] is called. *)
Definition bind_endpoints (ca : call_args) : result (string * string * string) :=
  match keyword_error (length (ca_args ca)) (ca_kwargs ca) with
  | Some e => Err e
  | None =>
      match missing_params ca with
      | [] => Ok (bound_value ca 0 "endpoint", bound_value ca 1 "auth_endpoint",
                  bound_value ca 2 "token_endpoint")
      | ms =>
          Err (TypeError (init_qualname ++ "() missing " ++ pretty (length ms)
                          ++ " required positional argument"
                          ++ (if (length ms =? 1)%nat then "" else "s")
                          ++ ": " ++ format_missing ms))
      end
  end.

Definition content_type_form : list (string * string) :=
  [("content-type", "application/x-www-form-urlencoded")].

(** The initial [self._params] of [__init__]. *)
Definition initial_params (client_id : option string) (scopes : list string)
    (redirect_uri : option string) (state code_challenge : string)
  : list (string * option string) :=
  [("client_id", client_id);
   ("response_type", Some "code");
   ("scope", Some (scope_param scopes));
   ("redirect_uri", redirect_uri);
   ("state", Some state);
   ("code_challenge", Some code_challenge);
   ("code_challenge_method", Some "S256")].

(** The heap of client objects and the class attribute
    [_SingletonPerEndpoint._instances], a dict from the key to the
    object. *)
Definition loc := nat.

Record world := {
  _instances : gmap string loc;
  heap : gmap loc AuthorizationClient;
  next_loc : loc
}.

Definition empty_world : world :=
  {| _instances := ∅; heap := ∅; next_loc := 0 |}.

Definition msg_auth_endpoint_required : string := "parameter auth_endpoint is required".

Section WithHash.

(** [hashlib.sha256(b).digest()]; every statement below holds for any
    digest function. *)
Variable sha256 : list Byte.byte -> list Byte.byte.

(** [_create_code_challenge(code_verifier)] *)
Definition _create_code_challenge (code_verifier : string) : string :=
  remove_char "="%char (of_chars (urlsafe_b64encode (sha256 (encode_utf8 code_verifier)))).

(** [AuthorizationClient.__init__], with the bytes drawn by
    [_generate_code_verifier] ([rv]) and [_generate_state_parameter]
    ([rs]). *)
Definition AuthorizationClient_init (pf : platform) (ca : call_args) (rv rs : list Byte.byte)
  : result AuthorizationClient :=
  match bind_endpoints ca with Err e => Err e | Ok (endpoint, auth_endpoint, token_endpoint) =>
  let remote :=
    match ca_endpoint_metadata ca with
    | None =>
        match urlparse pf auth_endpoint with
        | Err e => Err e
        | Ok remote_url =>
            Ok {| md_endpoint := hostname remote_url;
                  success_html := None; failure_html := None |}
        end
    | Some m => Ok m
    end in
  match remote with Err e => Err e | Ok remote =>
  match _generate_code_verifier rv with Err e => Err e | Ok code_verifier =>
  let code_challenge := _create_code_challenge code_verifier in
  let state := _generate_state_parameter rs in
  Ok {| _endpoint := endpoint; _auth_endpoint := auth_endpoint; _remote := remote;
        _token_endpoint := token_endpoint; _client_id := ca_client_id ca;
        _scopes := ca_scopes ca; _redirect_uri := ca_redirect_uri ca;
        _code_verifier := code_verifier; _code_challenge := code_challenge;
        _state := state; _verify := ca_verify ca; _headers := content_type_form;
        _params := initial_params (ca_client_id ca) (ca_scopes ca)
                     (ca_redirect_uri ca) state code_challenge |}
  end end end.

(** [_SingletonPerEndpoint.__call__]: the key is [args[0]] when there are
    positional arguments, else [kwargs["auth_endpoint"]]; a known key
    returns the stored object without running [__init__]. *)
Definition AuthorizationClient_call (pf : platform) (w : world) (ca : call_args) (rv rs : list Byte.byte)
  : result loc * world :=
  let key :=
    match ca_args ca with
    | a0 :: _ => Ok a0
    | [] =>
        match dict_get "auth_endpoint" (ca_kwargs ca) with
        | Some e => Ok e
        | None => Err (ValueError msg_auth_endpoint_required)
        end
    end in
  match key with
  | Err e => (Err e, w)
  | Ok endpoint =>
      match _instances w !! endpoint with
      | Some l => (Ok l, w)
      | None =>
          match AuthorizationClient_init pf ca rv rs with
          | Err e => (Err e, w)
          | Ok c =>
              let l := next_loc w in
              (Ok l, {| _instances := <[endpoint := l]> (_instances w);
                        heap := <[l := c]> (heap w);
                        next_loc := S l |})
          end
      end
  end.

End WithHash.

(* ------------------------------------------------------------------ *)
(** ** Token exchanges *)

(** Modelled from the spec: [Credentials] of [flytekit.clients.auth.keyring]
    (not under src/), built as [Credentials(access_token, refresh_token,
    for_endpoint, expires_in=...)]; the spec's [{access_token,
    refresh_token?, expires_in_seconds?, for_endpoint}], [None] for an
    absent optional field. *)
Record Credentials := {
  access_token : pyval;
  refresh_token : pyval;
  for_endpoint : string;
  expires_in : pyval
}.

(** A POST as [requests.post(url=..., data=..., headers=...,
    allow_redirects=..., verify=...)] receives it. *)
Record request := {
  post_url : string;
  post_data : list (string * pyval);
  post_headers : list (string * string);
  post_allow_redirects : bool;
  post_verify : pyval
}.

(** A response of the token endpoint: status, raw content and the JSON
    object [resp.json()] returns. *)
Record response := {
  status_code : Z;
  content : string;
  json_body : list (string * pyval)
}.

Definition py_of_opt (v : option string) : pyval :=
  match v with None => PNone | Some s => PStr s end.

Definition dq : string := String "034"%char EmptyString.

Definition msg_expected_access_token : string :=
  "Expected " ++ dq ++ "access_token" ++ dq ++ " in response from oauth server".

Definition msg_unexpected_state (st : string) : string :=
  "Unexpected state parameter [" ++ st ++ "] passed".

(** [f"...: [{resp.status_code}] {resp.content!r}"] *)
Definition msg_failed_token (status : Z) (body : string) : string :=
  "Failed to request access token with response: [" ++ pretty status ++ "] " ++ bytes_repr body.

Definition msg_no_refresh_token : string :=
  "no refresh token available with which to refresh authorization credentials".

Definition msg_refresh_non_200 (status : Z) : string :=
  "Non-200 returned from refresh token endpoint " ++ pretty status.

(** [_credentials_from_response]: the local [expires_in] is bound only
    when the body has ["expires_in"]; reading it unbound raises
    [UnboundLocalError]. *)
Definition _credentials_from_response (c : AuthorizationClient) (resp : response)
  : result Credentials :=
  let response_body := json_body resp in
  let refresh_token := PNone in
  if negb (dict_contains "access_token" response_body)
  then Err (ValueError msg_expected_access_token)
  else
    let refresh_token :=
      match dict_get "refresh_token" response_body with
      | Some v => v
      | None => refresh_token
      end in
    let expires_in_local : option pyval := dict_get "expires_in" response_body in
    match dict_get "access_token" response_body with
    | None => Err (KeyError "access_token")
    | Some access_token =>
        match expires_in_local with
        | None => Err (UnboundLocalError "expires_in")
        | Some e =>
            Ok {| access_token := access_token; refresh_token := refresh_token;
                  for_endpoint := _endpoint c; expires_in := e |}
        end
    end.

(** The token endpoint, as a function from the POST to its response. *)
Definition token_server := request -> response.

(** [_request_access_token(auth_code)]: the result, the client after the
    call ([self._params] is updated in place) and the POSTs issued. *)
Definition _request_access_token (c : AuthorizationClient) (auth_code : AuthorizationCode)
    (srv : token_server) : result Credentials * AuthorizationClient * list request :=
  if negb (String.eqb (_state c) (state auth_code))
  then (Err (ValueError (msg_unexpected_state (state auth_code))), c, [])
  else
    let c := set_params c (dict_update (_params c)
               [("code", Some (code auth_code));
                ("code_verifier", Some (_code_verifier c));
                ("grant_type", Some "authorization_code")]) in
    let req := {| post_url := _token_endpoint c;
                  post_data := map (fun kv => (kv.1, py_of_opt kv.2)) (_params c);
                  post_headers := _headers c;
                  post_allow_redirects := false;
                  post_verify := _verify c |} in
    let resp := srv req in
    if negb (Z.eqb (status_code resp) 200)
    then (Err (Exception (msg_failed_token (status_code resp) (content resp))), c, [req])
    else (_credentials_from_response c resp, c, [req]).

(** [refresh_access_token(credentials)]: the result and the POSTs issued. *)
Definition refresh_access_token (c : AuthorizationClient) (credentials : Credentials)
    (srv : token_server) : result Credentials * list request :=
  match refresh_token credentials with
  | PNone => (Err (ValueError msg_no_refresh_token), [])
  | rt =>
      let req := {| post_url := _token_endpoint c;
                    post_data := [("grant_type", PStr "refresh_token");
                                  ("client_id", py_of_opt (_client_id c));
                                  ("refresh_token", rt)];
                    post_headers := _headers c;
                    post_allow_redirects := false;
                    post_verify := _verify c |} in
      let resp := srv req in
      if negb (Z.eqb (status_code resp) 200)
      then (Err (AccessTokenNotFoundError (msg_refresh_non_200 (status_code resp))), [req])
      else (_credentials_from_response c resp, [req])
  end.

(* ------------------------------------------------------------------ *)
(** ** The callback server *)

(** [Listening] while [handle_request] waits for its request; [Closed]
    once [handle_request] has returned: the server process's target has
    finished and no later request is handled. *)
Inductive listener_state := Listening | Closed.

(** [OAuthHTTPServer] running [handle_request(q)]: [queue] is [q],
    [responses] the statuses written to the clients, [socket_open] false
    once [server_close] ran. *)
Record OAuthHTTPServer := {
  redirect_path : string;
  remote_metadata : EndpointMetadata;
  srv_state : listener_state;
  socket_open : bool;
  queue : list AuthorizationCode;
  responses : list Z
}.

Definition with_server (s : OAuthHTTPServer) (st : listener_state) (sock : bool)
    (q : list AuthorizationCode) (rs : list Z) : OAuthHTTPServer :=
  {| redirect_path := redirect_path s; remote_metadata := remote_metadata s;
     srv_state := st; socket_open := sock; queue := q; responses := rs |}.

Definition HTTP_OK : Z := 200.
Definition HTTP_NOT_FOUND : Z := 404.

(** The output side of a [BaseHTTPRequestHandler]: [send_response] puts
    the status line in [_headers_buffer] ([hbuf]); [end_headers] writes
    the buffer to the connection ([wire]). When the request is finished
    the connection is closed and an unwritten buffer is dropped. *)
Record handler := {
  hbuf : list Z;
  wire : list Z
}.

Definition new_handler : handler := {| hbuf := []; wire := [] |}.

(** [send_response(code)] (with its [Server] and [Date] headers). *)
Definition send_response (h : handler) (code : Z) : handler :=
  {| hbuf := (hbuf h ++ [code])%list; wire := wire h |}.

(** [end_headers()]: [flush_headers()] writes the buffer. *)
Definition end_headers (h : handler) : handler :=
  {| hbuf := []; wire := (wire h ++ hbuf h)%list |}.

(** The server once the request handled by [h] is finished: what [h]
    wrote reached the client. *)
Definition finish_request (s : OAuthHTTPServer) (h : handler) : OAuthHTTPServer :=
  with_server s (srv_state s) (socket_open s) (queue s) (responses s ++ wire h)%list.

(** [handle_authorization_code]: [self._queue.put(auth_code)], then
    [self.server_close()]. *)
Definition handle_authorization_code (s : OAuthHTTPServer) (ac : AuthorizationCode)
  : OAuthHTTPServer :=
  with_server s (srv_state s) false (queue s ++ [ac])%list (responses s).

(** [handle_login(data)]: [data["code"]] and [data["state"]] raise
    [KeyError] when missing. *)
Definition handle_login (s : OAuthHTTPServer) (data : list (string * string))
  : result OAuthHTTPServer :=
  match dict_get "code" data with
  | None => Err (KeyError "code")
  | Some cd =>
      match dict_get "state" data with
      | None => Err (KeyError "state")
      | Some st => Ok (handle_authorization_code s {| code := cd; state := st |})
      end
  end.

(** [OAuthCallbackHandler.do_GET] for the request path [self.path]. An
    exception (of [urlparse] or of [handle_login]) ends the request: the
    server's [handle_error] runs and the connection is closed, with what
    was done before it. The body of the page is not modelled. *)
Definition do_GET (pf : platform) (s : OAuthHTTPServer) (self_path : string)
  : OAuthHTTPServer :=
  match urlparse pf self_path with
  | Err _ => s
  | Ok url =>
      if String.eqb (py_strip "/" (path url)) (py_strip "/" (redirect_path s)) then
        let h := send_response new_handler HTTP_OK in
        let h := end_headers h in
        let s' := match handle_login s (dict_of_pairs (parse_qsl (query url))) with
                  | Ok s' => s'
                  | Err _ => s
                  end in
        finish_request s' h
      else
        let h := send_response new_handler HTTP_NOT_FOUND in
        finish_request s h
  end.

(** One inbound request to the server process: [handle_request] serves it
    and returns; once it has returned nothing serves a request. *)
Definition listener_step (pf : platform) (s : OAuthHTTPServer) (self_path : string)
  : OAuthHTTPServer :=
  match srv_state s with
  | Listening =>
      let s' := do_GET pf s self_path in
      with_server s' Closed (socket_open s') (queue s') (responses s')
  | Closed => s
  end.

(** The server process over the inbound requests, in arrival order. *)
Definition run_listener (pf : platform) (s : OAuthHTTPServer) (inbound : list string)
  : OAuthHTTPServer :=
  fold_left (listener_step pf) inbound s.

(** [sock.bind((host, port))] of an [AF_INET] socket: the address is
    checked (a [str] host, an [int] port), then the system binds and
    listens. *)
Definition socket_bind (pf : platform) (host : option string) (prt : option Z)
  : option exn :=
  match host with
  | None => Some (TypeError "str, bytes or bytearray expected, not NoneType")
  | Some h =>
      match prt with
      | None => Some (TypeError "'NoneType' object cannot be interpreted as an integer")
      | Some p => os_bind pf h p
      end
  end.

(** [_create_callback_server()]: [server_url = urlparse(self._redirect_uri)],
    the address [(server_url.hostname, server_url.port)], then
    [OAuthHTTPServer(...)], whose constructor binds and listens. *)
Definition _create_callback_server (pf : platform) (c : AuthorizationClient)
  : result OAuthHTTPServer :=
  let server_url :=
    match _redirect_uri c with
    | None => Ok empty_parse
    | Some u => urlparse pf u
    end in
  match server_url with
  | Err e => Err e
  | Ok server_url =>
      let host := hostname server_url in
      match port server_url with
      | Err e => Err e
      | Ok prt =>
          match socket_bind pf host prt with
          | Some e => Err e
          | None =>
              Ok {| redirect_path := path server_url; remote_metadata := _remote c;
                    srv_state := Listening; socket_open := true; queue := [];
                    responses := [] |}
          end
      end
  end.

(* ------------------------------------------------------------------ *)
(** ** The flow *)

(** The URL [_request_authorization_code()] opens. *)
Definition authorization_url (pf : platform) (c : AuthorizationClient) : result string :=
  match urlparse pf (_auth_endpoint c) with
  | Err e => Err e
  | Ok u => Ok (urlunparse (scheme u) (netloc u) (path u) (urlencode (_params c)))
  end.

(** What the flow does outside the process. *)
Inductive event :=
| OpenNewTab (url : string)
| Post (r : request).

(** How [get_creds_from_remote()] ends: it returns, raises, or waits
    forever in [q.get()] (nothing was put on the queue). *)
Inductive flow_outcome :=
| Returned (cr : Credentials)
| Raised (e : exn)
| Blocks.

Definition outcome_of (r : result Credentials) : flow_outcome :=
  match r with Ok cr => Returned cr | Err e => Raised e end.

(** The code [q.get()] receives from the server process. *)
Definition delivered (pf : platform) (s : OAuthHTTPServer) (inbound : list string)
  : option AuthorizationCode :=
  head (queue (run_listener pf s inbound)).

(** [get_creds_from_remote()]: the server is created, the server process
    serves [inbound], the browser is sent to the authorization URL, and
    the first code on the queue goes to [_request_access_token]. *)
Definition get_creds_from_remote (pf : platform) (c : AuthorizationClient)
    (inbound : list string) (srv : token_server)
  : flow_outcome * AuthorizationClient * list event :=
  match _create_callback_server pf c with
  | Err e => (Raised e, c, [])
  | Ok server =>
      match authorization_url pf c with
      | Err e => (Raised e, c, [])
      | Ok url =>
          let opened := [OpenNewTab url] in
          match delivered pf server inbound with
          | None => (Blocks, c, opened)
          | Some auth_code =>
              let '(r, c', posts) := _request_access_token c auth_code srv in
              (outcome_of r, c', (opened ++ map Post posts)%list)
          end
      end
  end.

(** A method call on the object at [l]: the object is updated in place in
    the heap, so every holder of [l] sees the update. *)
Definition invoke_request_access_token (w : world) (l : loc) (auth_code : AuthorizationCode)
    (srv : token_server) : option (result Credentials * list request * world) :=
  match heap w !! l with
  | None => None
  | Some c =>
      let '(r, c', posts) := _request_access_token c auth_code srv in
      Some (r, posts, {| _instances := _instances w; heap := <[l := c']> (heap w);
                         next_loc := next_loc w |})
  end.

(* ================================================================== *)
(** * Properties *)

(* ------------------------------------------------------------------ *)
(** ** Lemmas on the string and base64 helpers *)

Lemma chars_of_chars (l : list ascii) : chars (of_chars l) = l.
Proof. apply list_ascii_of_string_of_list_ascii. Qed.

Lemma length_of_chars (l : list ascii) : String.length (of_chars l) = length l.
Proof. induction l as [|c l IH]; simpl; [reflexivity | now rewrite IH]. Qed.

Lemma nth_in_or_default {A} (n : nat) (l : list A) (d : A) :
  In (nth n l d) l \/ nth n l d = d.
Proof.
  revert n; induction l as [|a l IH]; intros [|n]; simpl; auto.
  destruct (IH n); auto.
Qed.

Lemma verifier_char_b64_char (x : Z) : verifier_char (b64_char x) = true.
Proof.
  unfold b64_char.
  destruct (nth_in_or_default (Z.to_nat (Z.land x 63)) b64_alphabet "A"%char) as [Hin|Hd].
  - assert (Hall : forallb verifier_char b64_alphabet = true) by reflexivity.
    rewrite forallb_forall in Hall. now apply Hall.
  - rewrite Hd. reflexivity.
Qed.

(** Cleaning an encoding of [3k+1] bytes keeps [4k+2] characters: every
    alphabet character stays and the two [=] of the padding go. *)
Lemma clean_b64_length_3k1 (k : nat) (bs : list Byte.byte) :
  length bs = 3 * k + 1 ->
  length (List.filter verifier_char (urlsafe_b64encode bs)) = 4 * k + 2.
Proof.
  revert bs; induction k as [|k IH]; intros bs Hlen.
  - destruct bs as [|b1 [|b2 bs]]; cbn [length] in Hlen; try lia.
    cbn [urlsafe_b64encode List.filter]. rewrite !verifier_char_b64_char.
    reflexivity.
  - destruct bs as [|b1 [|b2 [|b3 bs]]]; cbn [length] in Hlen; try lia.
    cbn [urlsafe_b64encode List.filter].
    rewrite !verifier_char_b64_char. cbn [length].
    rewrite (IH bs) by lia. lia.
Qed.

Lemma generate_code_verifier_spec (urandom : list Byte.byte) :
  let v := clean_verifier (of_chars (urlsafe_b64encode urandom)) in
  (_generate_code_verifier urandom = Ok v /\ 43 <= String.length v <= 128)%nat \/
  (_generate_code_verifier urandom = Err (ValueError msg_verifier_too_short) /\
     String.length v < 43)%nat \/
  (_generate_code_verifier urandom = Err (ValueError msg_verifier_too_long) /\
     128 < String.length v)%nat.
Proof.
  intros v. unfold _generate_code_verifier. fold v.
  destruct (Nat.ltb_spec (String.length v) 43) as [H1|H1].
  - right; left. split; [reflexivity | lia].
  - destruct (Nat.ltb_spec 128 (String.length v)) as [H2|H2].
    + right; right. split; [reflexivity | lia].
    + left. split; [reflexivity | lia].
Qed.

Lemma clean_verifier_length_64 (urandom : list Byte.byte) :
  length urandom = _code_verifier_length ->
  String.length (clean_verifier (of_chars (urlsafe_b64encode urandom))) = 86%nat.
Proof.
  intros H. unfold clean_verifier. rewrite length_of_chars, chars_of_chars.
  apply (clean_b64_length_3k1 21). unfold _code_verifier_length in H. lia.
Qed.

(* ------------------------------------------------------------------ *)
(** ** PKCE generator *)

(** C9: [_generate_code_verifier] either returns exactly the cleaned
    url-safe base64 encoding of its random bytes, of length in [43,128],
    or raises the length [ValueError] (the spec's [InvalidVerifierLength])
    when that length is out of bounds; it never truncates or pads. On the
    64 bytes it draws it always returns, a verifier of 86 characters. *)
Theorem generate_code_verifier_never_truncates (urandom : list Byte.byte) :
  let v := clean_verifier (of_chars (urlsafe_b64encode urandom)) in
  ((_generate_code_verifier urandom = Ok v /\ 43 <= String.length v <= 128)%nat \/
   (exists msg, _generate_code_verifier urandom = Err (ValueError msg) /\
      (msg = msg_verifier_too_short \/ msg = msg_verifier_too_long) /\
      (String.length v < 43 \/ 128 < String.length v)%nat)) /\
  (length urandom = _code_verifier_length ->
   _generate_code_verifier urandom = Ok v /\ String.length v = 86%nat).
Proof.
  intros v. split.
  - destruct (generate_code_verifier_spec urandom) as [H|[H|H]]; fold v in H.
    + left. exact H.
    + right. exists msg_verifier_too_short. destruct H as [H1 H2]. auto.
    + right. exists msg_verifier_too_long. destruct H as [H1 H2]. auto.
  - intros Hlen. pose proof (clean_verifier_length_64 urandom Hlen) as H86. fold v in H86.
    split; [|exact H86].
    unfold _generate_code_verifier. fold v. rewrite H86. reflexivity.
Qed.

(* ------------------------------------------------------------------ *)
(** ** Dict lemmas *)

Lemma dict_get_set_eq {V} (k : string) (v : V) (d : list (string * V)) :
  dict_get k (dict_set k v d) = Some v.
Proof.
  induction d as [|[k' v'] d IH]; simpl.
  - now rewrite String.eqb_refl.
  - destruct (String.eqb k k') eqn:E; simpl.
    + now rewrite String.eqb_refl.
    + now rewrite E.
Qed.

Lemma dict_get_set_ne {V} (k k' : string) (v : V) (d : list (string * V)) :
  k <> k' -> dict_get k (dict_set k' v d) = dict_get k d.
Proof.
  intros Hne. induction d as [|[k'' v''] d IH]; simpl.
  - apply String.eqb_neq in Hne. now rewrite Hne.
  - destruct (String.eqb k' k'') eqn:E; simpl.
    + apply String.eqb_eq in E. subst k''.
      apply String.eqb_neq in Hne. now rewrite Hne.
    + destruct (String.eqb k k''); [reflexivity | exact IH].
Qed.

Lemma dict_get_In {V} (k : string) (v : V) (d : list (string * V)) :
  dict_get k d = Some v -> In (k, v) d.
Proof.
  induction d as [|[k' v'] d IH]; simpl; [discriminate|].
  destruct (String.eqb k k') eqn:E.
  - intros H. injection H as <-. apply String.eqb_eq in E. subst. now left.
  - intros H. right. now apply IH.
Qed.

(** The three fields [_request_access_token] adds to the parameters. *)
Lemma token_grant_fields {V} (d : list (string * V)) (cd vf gt : V) :
  let d' := dict_update d [("code", cd); ("code_verifier", vf); ("grant_type", gt)] in
  dict_get "code" d' = Some cd /\ dict_get "code_verifier" d' = Some vf /\
  dict_get "grant_type" d' = Some gt.
Proof.
  intros d'. unfold d', dict_update. cbn [fold_left fst snd].
  split; [|split].
  - rewrite dict_get_set_ne by discriminate.
    rewrite dict_get_set_ne by discriminate. apply dict_get_set_eq.
  - rewrite dict_get_set_ne by discriminate. apply dict_get_set_eq.
  - apply dict_get_set_eq.
Qed.

(* ------------------------------------------------------------------ *)
(** ** Parsing the token response *)

(** The body [{"access_token": "tok"}] of the spec's example. *)
Definition resp_only_access_token : response :=
  {| status_code := 200; content := "{" ++ dq ++ "access_token" ++ dq ++ ": "
                                    ++ dq ++ "tok" ++ dq ++ "}";
     json_body := [("access_token", PStr "tok")] |}.

(** C1 (the code's behaviour): on a 200 body with ["access_token"] and
    without ["expires_in"], [_credentials_from_response] reads the
    unbound local [expires_in] and raises [UnboundLocalError]; at the
    spec's example [{"access_token": "tok"}] the whole exchange raises. *)
Theorem credentials_from_response_without_expires_in_raises
    (c : AuthorizationClient) (auth_code : AuthorizationCode) :
  _credentials_from_response c resp_only_access_token = Err (UnboundLocalError "expires_in") /\
  (state auth_code = _state c ->
   fst (fst (_request_access_token c auth_code (fun _ => resp_only_access_token)))
     = Err (UnboundLocalError "expires_in")).
Proof.
  split.
  - reflexivity.
  - intros Hs. unfold _request_access_token. rewrite Hs, String.eqb_refl. reflexivity.
Qed.

(** When the body has ["expires_in"], the credentials carry the body's
    fields, [None] for a missing ["refresh_token"]. *)
Lemma credentials_from_response_with_expires_in
    (c : AuthorizationClient) (resp : response) (at_ e : pyval) :
  dict_get "access_token" (json_body resp) = Some at_ ->
  dict_get "expires_in" (json_body resp) = Some e ->
  _credentials_from_response c resp =
    Ok {| access_token := at_;
          refresh_token := match dict_get "refresh_token" (json_body resp) with
                           | Some r => r | None => PNone end;
          for_endpoint := _endpoint c; expires_in := e |}.
Proof.
  intros Ha He. unfold _credentials_from_response, dict_contains.
  rewrite Ha, He. reflexivity.
Qed.

(** C5: a 200 response whose JSON body has no ["access_token"] makes
    the parse, the authorization-code exchange (once past the state check)
    and the refresh (with a refresh token) raise the [ValueError] of the
    missing access token (the spec's [MalformedTokenResponse]); no
    credentials are returned. *)
Theorem token_response_without_access_token_fails
    (c : AuthorizationClient) (auth_code : AuthorizationCode)
    (credentials : Credentials) (srv : token_server) :
  (forall req, status_code (srv req) = 200%Z /\
               dict_get "access_token" (json_body (srv req)) = None) ->
  (forall resp, dict_get "access_token" (json_body resp) = None ->
     _credentials_from_response c resp = Err (ValueError msg_expected_access_token)) /\
  (state auth_code = _state c ->
   fst (fst (_request_access_token c auth_code srv))
     = Err (ValueError msg_expected_access_token)) /\
  (refresh_token credentials <> PNone ->
   fst (refresh_access_token c credentials srv)
     = Err (ValueError msg_expected_access_token)).
Proof.
  intros Hsrv.
  assert (Hparse : forall c' resp, dict_get "access_token" (json_body resp) = None ->
            _credentials_from_response c' resp = Err (ValueError msg_expected_access_token)).
  { intros c' resp H. unfold _credentials_from_response, dict_contains. now rewrite H. }
  split; [|split].
  - apply Hparse.
  - intros Hs. unfold _request_access_token. rewrite Hs, String.eqb_refl.
    cbn zeta. match goal with |- context [srv ?r] => destruct (Hsrv r) as [H1 H2] end.
    rewrite H1. cbn. now apply Hparse.
  - intros Hr. unfold refresh_access_token.
    destruct (refresh_token credentials) eqn:E; [contradiction| | | | |];
    match goal with |- context [srv ?r] => destruct (Hsrv r) as [H1 H2] end;
    rewrite H1; cbn; now apply Hparse.
Qed.

(** C6: [refresh_access_token] with no refresh token raises the
    [ValueError] (the spec's [NoRefreshToken]) and issues no POST; it
    issues a POST exactly when a refresh token is present. *)
Theorem refresh_without_refresh_token_no_network
    (c : AuthorizationClient) (credentials : Credentials) (srv : token_server) :
  (refresh_token credentials = PNone ->
   refresh_access_token c credentials srv = (Err (ValueError msg_no_refresh_token), [])) /\
  (snd (refresh_access_token c credentials srv) <> [] <-> refresh_token credentials <> PNone).
Proof.
  unfold refresh_access_token. split.
  - intros H. now rewrite H.
  - destruct (refresh_token credentials) eqn:E;
      [split; [intros H; now contradiction H | intros H; now contradiction H]| | | | |];
      (split; [intros _; discriminate|
               intros _; destruct (Z.eqb _ 200); cbn; discriminate]).
Qed.

(* ------------------------------------------------------------------ *)
(** ** The callback server *)

Lemma listener_step_closed (pf : platform) (s : OAuthHTTPServer) (p : string) :
  srv_state s = Closed -> listener_step pf s p = s.
Proof. intros H. unfold listener_step. now rewrite H. Qed.

Lemma listener_step_state (pf : platform) (s : OAuthHTTPServer) (p : string) :
  srv_state (listener_step pf s p) = Closed.
Proof. unfold listener_step. now destruct (srv_state s) eqn:E; [|rewrite E]. Qed.

Lemma run_listener_closed (pf : platform) (s : OAuthHTTPServer) (later : list string) :
  srv_state s = Closed -> run_listener pf s later = s.
Proof.
  intros H. unfold run_listener. induction later as [|p later IH]; [reflexivity|].
  cbn [fold_left]. rewrite listener_step_closed by exact H. exact IH.
Qed.

(** Only the first inbound request is served. *)
Lemma run_listener_cons (pf : platform) (s : OAuthHTTPServer) (p : string)
    (rest : list string) :
  run_listener pf s (p :: rest) = listener_step pf s p.
Proof.
  change (run_listener pf (listener_step pf s p) rest = listener_step pf s p).
  apply run_listener_closed, listener_step_state.
Qed.

(** [do_GET] either leaves queue and socket alone or puts one code and
    closes the socket. *)
Lemma do_GET_cases (pf : platform) (s : OAuthHTTPServer) (p : string) :
  (queue (do_GET pf s p) = queue s /\ socket_open (do_GET pf s p) = socket_open s) \/
  (exists ac, queue (do_GET pf s p) = (queue s ++ [ac])%list /\
              socket_open (do_GET pf s p) = false).
Proof.
  unfold do_GET.
  destruct (urlparse pf p) as [url|e]; [|left; auto].
  destruct (String.eqb _ _).
  - unfold handle_login.
    destruct (dict_get "code" _) as [cd|]; [|left; auto].
    destruct (dict_get "state" _) as [st|]; [|left; auto].
    right. exists {| code := cd; state := st |}. auto.
  - left. auto.
Qed.

(** A server [_create_callback_server] returns is listening, with an
    empty queue, an open socket and nothing written yet. *)
Lemma create_callback_server_fresh (pf : platform) (c : AuthorizationClient)
    (s : OAuthHTTPServer) :
  _create_callback_server pf c = Ok s ->
  srv_state s = Listening /\ queue s = [] /\ socket_open s = true /\ responses s = [].
Proof.
  unfold _create_callback_server.
  destruct (match _redirect_uri c with
            | Some u => urlparse pf u
            | None => Ok empty_parse
            end) as [r|e]; [|discriminate].
  destruct (port r) as [prt|e]; [|discriminate].
  destruct (socket_bind pf (hostname r) prt); [discriminate|].
  intros H. injection H as <-. repeat split.
Qed.

(** C8: from the freshly created server, for any inbound requests, at
    most one code is put on the queue; once one is, the server is closed
    (its socket closed by [server_close]); and a closed server ignores
    every later request. *)
Theorem listener_serves_at_most_one_callback
    (pf : platform) (c : AuthorizationClient) (s : OAuthHTTPServer)
    (inbound : list string) :
  _create_callback_server pf c = Ok s ->
  let s' := run_listener pf s inbound in
  (length (queue s') <= 1)%nat /\
  (forall ac, queue s' = [ac] -> srv_state s' = Closed /\ socket_open s' = false) /\
  (srv_state s' = Closed -> forall later, run_listener pf s' later = s').
Proof.
  intros Hc. cbv zeta.
  destruct (create_callback_server_fresh pf c s Hc) as (Hst & Hq & Hsock & _).
  destruct inbound as [|p rest].
  { cbn. rewrite Hq, Hst. split; [cbn; lia|split; [intros ac Hac; discriminate|]].
    intros Hcl. discriminate. }
  rewrite run_listener_cons. split; [|split].
  - unfold listener_step. rewrite Hst. cbn [queue with_server].
    destruct (do_GET_cases pf s p) as [[H1 _]|[ac [H1 _]]]; rewrite H1, Hq; cbn; lia.
  - intros ac Hac. split; [apply listener_step_state|].
    unfold listener_step in *. rewrite Hst in *. cbn [queue socket_open with_server] in *.
    destruct (do_GET_cases pf s p) as [[H1 _]|[ac' [_ H2]]]; [|exact H2].
    rewrite H1, Hq in Hac. discriminate.
  - intros Hcl later. now apply run_listener_closed.
Qed.

(** A server waiting on the redirect path [/callback]. *)
Definition example_server : OAuthHTTPServer :=
  {| redirect_path := "/callback";
     remote_metadata := {| md_endpoint := Some "localhost"; success_html := None;
                           failure_html := None |};
     srv_state := Listening; socket_open := true; queue := []; responses := [] |}.

(** A client whose redirect path is [/callback] and whose state is [S1]. *)
Definition example_client : AuthorizationClient :=
  {| _endpoint := "dns:///flyte.example.com";
     _auth_endpoint := "https://auth.example.com/oauth2/authorize";
     _remote := remote_metadata example_server;
     _token_endpoint := "https://auth.example.com/oauth2/token";
     _client_id := Some "flytepropeller";
     _scopes := ["all"];
     _redirect_uri := Some "http://localhost:53593/callback";
     _code_verifier := "AQEBAQEBAQEBAQEBAQEBAQEBAQEBAQEBAQEBAQEBAQEBAQEBAQEBAQEBAQEBAQEBAQEBAQEBAQEBAQEBAQEBAQ";
     _code_challenge := "challenge";
     _state := "S1";
     _verify := PNone;
     _headers := content_type_form;
     _params := initial_params (Some "flytepropeller") ["all"]
                  (Some "http://localhost:53593/callback") "S1" "challenge" |}.

(** C7 (the code's behaviour): a first request whose path does not match
    the redirect path gets no response: [do_GET] calls
    [send_response(404)], which only puts the status line in the header
    buffer, and never [end_headers], so nothing is written before the
    connection is closed. Nothing is put on the queue, and
    [handle_request] has returned: the server is closed and no later
    request of the same flow attempt is served. *)
Theorem non_matching_path_gets_no_response
    (pf : platform) (s : OAuthHTTPServer) (p : string) (u : ParseResult)
    (rest : list string) :
  srv_state s = Listening ->
  urlparse pf p = Ok u ->
  py_strip "/" (path u) <> py_strip "/" (redirect_path s) ->
  let s' := listener_step pf s p in
  responses s' = responses s /\
  queue s' = queue s /\
  srv_state s' = Closed /\
  run_listener pf s (p :: rest) = s'.
Proof.
  intros Hst Hu Hne s'.
  assert (Hget : do_GET pf s p = with_server s (srv_state s) (socket_open s) (queue s)
                                   (responses s ++ [])%list).
  { unfold do_GET. rewrite Hu. apply String.eqb_neq in Hne. now rewrite Hne. }
  split; [|split; [|split]].
  - unfold s', listener_step. rewrite Hst, Hget. cbn. apply app_nil_r.
  - unfold s', listener_step. rewrite Hst, Hget. reflexivity.
  - apply listener_step_state.
  - apply run_listener_cons.
Qed.

(* ------------------------------------------------------------------ *)
(** ** The flow: state check and token exchange *)

Lemma dict_get_map {V W} (f : V -> W) (k : string) (d : list (string * V)) :
  dict_get k (map (fun kv => (kv.1, f kv.2)) d) = option_map f (dict_get k d).
Proof.
  induction d as [|[k' v] d IH]; cbn; [reflexivity|].
  destruct (String.eqb k k'); [reflexivity | exact IH].
Qed.

(** The first request, when it parses, matches the redirect path and
    carries a code and a state, is what [q.get()] receives. *)
Lemma delivered_first_callback
    (pf : platform) (c : AuthorizationClient) (s : OAuthHTTPServer) (p : string)
    (u : ParseResult) (rest : list string) (cd st : string) :
  _create_callback_server pf c = Ok s ->
  urlparse pf p = Ok u ->
  py_strip "/" (path u) = py_strip "/" (redirect_path s) ->
  dict_get "code" (dict_of_pairs (parse_qsl (query u))) = Some cd ->
  dict_get "state" (dict_of_pairs (parse_qsl (query u))) = Some st ->
  delivered pf s (p :: rest) = Some {| code := cd; state := st |}.
Proof.
  intros Hc Hu Hpath Hcd Hst.
  destruct (create_callback_server_fresh pf c s Hc) as (Hl & Hq & _).
  unfold delivered. rewrite run_listener_cons. unfold listener_step. rewrite Hl.
  unfold do_GET. rewrite Hu, Hpath, String.eqb_refl.
  unfold handle_login. rewrite Hcd, Hst.
  cbn [queue with_server finish_request handle_authorization_code]. rewrite Hq. reflexivity.
Qed.

(** C3: when the code [q.get()] receives carries a state other than the
    client's, [get_creds_from_remote] raises the state [ValueError] (the
    spec's [StateMismatch]) and its only outside action is opening the
    browser: no POST reaches the token endpoint. (When the authorization
    URL cannot be built, the flow raises before the browser is opened and
    [q.get()] is never reached.) *)
Theorem state_mismatch_no_token_request
    (pf : platform) (c : AuthorizationClient) (inbound : list string)
    (srv : token_server) (s : OAuthHTTPServer) (auth_code : AuthorizationCode) :
  _create_callback_server pf c = Ok s ->
  delivered pf s inbound = Some auth_code ->
  state auth_code <> _state c ->
  get_creds_from_remote pf c inbound srv =
    match authorization_url pf c with
    | Ok url => (Raised (ValueError (msg_unexpected_state (state auth_code))), c,
                 [OpenNewTab url])
    | Err e => (Raised e, c, [])
    end.
Proof.
  intros Hc Hd Hne. unfold get_creds_from_remote. rewrite Hc.
  destruct (authorization_url pf c) as [url|e]; [|reflexivity].
  rewrite Hd. unfold _request_access_token.
  assert (E : String.eqb (_state c) (state auth_code) = false)
    by (apply String.eqb_neq; congruence).
  rewrite E. reflexivity.
Qed.

(** C4: when the flow reaches [q.get()] (the server is bound and the
    authorization URL built) and the code it receives carries the
    client's state, the flow POSTs to the token endpoint, after opening
    the browser, with [grant_type=authorization_code], the callback's own
    code and the client's code verifier. *)
Theorem matching_state_exchanges_that_code
    (pf : platform) (c : AuthorizationClient) (inbound : list string)
    (srv : token_server) (s : OAuthHTTPServer) (url : string)
    (auth_code : AuthorizationCode) :
  _create_callback_server pf c = Ok s ->
  authorization_url pf c = Ok url ->
  delivered pf s inbound = Some auth_code ->
  state auth_code = _state c ->
  exists req,
    snd (get_creds_from_remote pf c inbound srv) = [OpenNewTab url; Post req] /\
    post_url req = _token_endpoint c /\
    dict_get "grant_type" (post_data req) = Some (PStr "authorization_code") /\
    dict_get "code" (post_data req) = Some (PStr (code auth_code)) /\
    dict_get "code_verifier" (post_data req) = Some (PStr (_code_verifier c)).
Proof.
  intros Hc Hurl Hd Heq.
  unfold get_creds_from_remote. rewrite Hc, Hurl, Hd.
  unfold _request_access_token. rewrite Heq, String.eqb_refl. cbn [negb].
  destruct (token_grant_fields (_params c) (Some (code auth_code))
              (Some (_code_verifier c)) (Some "authorization_code")) as (H1 & H2 & H3).
  eexists. split.
  - destruct (negb (Z.eqb _ 200)); reflexivity.
  - cbn [post_url post_data _params set_params _token_endpoint].
    rewrite !dict_get_map, H1, H2, H3. auto.
Qed.

(* ------------------------------------------------------------------ *)
(** ** The parameter dict after a token exchange *)

Lemma urlencode_fields_In (k : string) (v : option string)
    (d : list (string * option string)) :
  In (k, v) d ->
  In (quote_plus k ++ "=" ++ quote_plus (py_str_opt v)) (urlencode_fields d).
Proof.
  intros H. unfold urlencode_fields.
  exact (in_map (fun kv => quote_plus kv.1 ++ "=" ++ quote_plus (py_str_opt kv.2)) d (k, v) H).
Qed.

(** C10: once past the state check, [_request_access_token] on the object
    at [l] leaves [code], [code_verifier] and [grant_type=authorization_code]
    in that object's [_params], whatever the exchange's outcome; the
    authorization URL built from it afterwards carries these fields; a
    freshly initialised dict (no [grant_type]) is changed; and a later
    construction with the same key returns this same object. *)
Theorem request_access_token_mutates_shared_params
    (sha256 : list Byte.byte -> list Byte.byte) (pf : platform) (w : world) (l : loc)
    (c : AuthorizationClient) (auth_code : AuthorizationCode) (srv : token_server)
    (ca : call_args) (rv rs : list Byte.byte) :
  heap w !! l = Some c ->
  state auth_code = _state c ->
  exists r posts w' c',
    invoke_request_access_token w l auth_code srv = Some (r, posts, w') /\
    heap w' !! l = Some c' /\
    dict_get "code" (_params c') = Some (Some (code auth_code)) /\
    dict_get "code_verifier" (_params c') = Some (Some (_code_verifier c)) /\
    dict_get "grant_type" (_params c') = Some (Some "authorization_code") /\
    authorization_url pf c' =
      match urlparse pf (_auth_endpoint c) with
      | Ok u => Ok (urlunparse (scheme u) (netloc u) (path u) (urlencode (_params c')))
      | Err e => Err e
      end /\
    In ("code=" ++ quote_plus (code auth_code)) (urlencode_fields (_params c')) /\
    In ("code_verifier=" ++ quote_plus (_code_verifier c)) (urlencode_fields (_params c')) /\
    In "grant_type=authorization_code" (urlencode_fields (_params c')) /\
    (dict_get "grant_type" (_params c) = None -> _params c' <> _params c) /\
    (forall key, _instances w !! key = Some l -> hd_error (ca_args ca) = Some key ->
       AuthorizationClient_call sha256 pf w' ca rv rs = (Ok l, w')).
Proof.
  intros Hl Hs.
  set (p' := dict_update (_params c)
               [("code", Some (code auth_code)); ("code_verifier", Some (_code_verifier c));
                ("grant_type", Some "authorization_code")]).
  destruct (token_grant_fields (_params c) (Some (code auth_code))
              (Some (_code_verifier c)) (Some "authorization_code")) as (H1 & H2 & H3).
  fold p' in H1, H2, H3.
  unfold invoke_request_access_token. rewrite Hl.
  unfold _request_access_token. rewrite Hs, String.eqb_refl. cbn [negb]. fold p'.
  set (req := {| post_url := _token_endpoint (set_params c p'); post_data := _;
                 post_headers := _; post_allow_redirects := _; post_verify := _ |}).
  set (w' := {| _instances := _instances w; heap := <[l := set_params c p']> (heap w);
                next_loc := next_loc w |}).
  exists (if negb (Z.eqb (status_code (srv req)) 200)
          then Err (Exception (msg_failed_token (status_code (srv req)) (content (srv req))))
          else _credentials_from_response (set_params c p') (srv req)).
  exists [req], w', (set_params c p').
  cbn [_params set_params _auth_endpoint].
  split; [destruct (negb _); reflexivity|].
  split; [unfold w'; cbn; apply lookup_insert_eq|].
  split; [exact H1|]. split; [exact H2|]. split; [exact H3|].
  split; [unfold authorization_url; cbn [_auth_endpoint set_params _params];
          destruct (urlparse pf (_auth_endpoint c)); reflexivity|].
  split; [exact (urlencode_fields_In _ _ _ (dict_get_In _ _ _ H1))|].
  split; [exact (urlencode_fields_In _ _ _ (dict_get_In _ _ _ H2))|].
  split; [exact (urlencode_fields_In _ _ _ (dict_get_In _ _ _ H3))|].
  split.
  - intros Hnone Heq. rewrite Heq in H3. congruence.
  - intros key Hkey Harg. unfold AuthorizationClient_call.
    destruct (ca_args ca) as [|a0 args]; [discriminate|].
    injection Harg as ->. cbn [w' _instances]. rewrite Hkey. reflexivity.
Qed.

(* ------------------------------------------------------------------ *)
(** ** The per-endpoint singleton *)

Definition example_auth_endpoint : string := "https://auth.example.com/oauth2/authorize".

(** [AuthorizationClient(endpoint, auth_endpoint, token_endpoint, ...)]
    with all three passed positionally. *)
Definition positional_call (endpoint auth_endpoint : string) : call_args :=
  {| ca_args := [endpoint; auth_endpoint; "https://auth.example.com/oauth2/token"];
     ca_kwargs := []; ca_scopes := ["all"]; ca_client_id := Some "flytepropeller";
     ca_redirect_uri := Some "http://localhost:53593/callback";
     ca_endpoint_metadata := None; ca_verify := PNone |}.

Definition random_64 : list Byte.byte := repeat Byte.x01 64.
Definition random_40 : list Byte.byte := repeat Byte.x02 40.

(** C2 (the code's behaviour): called positionally, the metaclass keys on
    [args[0]], the [endpoint] argument: two calls with the same
    [auth_endpoint] and different [endpoint]s give two objects, and two
    calls with the same [endpoint] and different [auth_endpoint]s give one. *)
Theorem singleton_keyed_by_first_positional
    (sha256 : list Byte.byte -> list Byte.byte) (pf : platform) :
  let w1 := snd (AuthorizationClient_call sha256 pf empty_world
                   (positional_call "dns:///a" example_auth_endpoint) random_64 random_40) in
  fst (AuthorizationClient_call sha256 pf empty_world
         (positional_call "dns:///a" example_auth_endpoint) random_64 random_40) = Ok 0%nat /\
  fst (AuthorizationClient_call sha256 pf w1
         (positional_call "dns:///b" example_auth_endpoint) random_64 random_40) = Ok 1%nat /\
  fst (AuthorizationClient_call sha256 pf w1
         (positional_call "dns:///a" "https://other.example.com/authorize") random_64 random_40)
    = Ok 0%nat.
Proof. vm_compute. repeat split. Qed.

(** With [auth_endpoint] passed by keyword and no positional argument,
    the key is [auth_endpoint]: a known one returns the stored object. *)
Lemma singleton_keyword_known (sha256 : list Byte.byte -> list Byte.byte) (pf : platform)
    (w : world) (ca : call_args) (rv rs : list Byte.byte) (e : string) (l : loc) :
  ca_args ca = [] -> dict_get "auth_endpoint" (ca_kwargs ca) = Some e ->
  _instances w !! e = Some l ->
  AuthorizationClient_call sha256 pf w ca rv rs = (Ok l, w).
Proof.
  intros Ha Hk Hi. unfold AuthorizationClient_call. now rewrite Ha, Hk, Hi.
Qed.

(* ------------------------------------------------------------------ *)
(** ** The statements at concrete inputs *)

(** A platform on which every bracketed host is an IPv6 address, every
    netloc passes the NFKC check, and binding succeeds. *)
Definition example_platform : platform :=
  {| ip_address := fun _ => Some IPv6; checknetloc_nfkc := fun _ => None;
     os_bind := fun _ _ => None |}.

Definition srv_tok : token_server := fun _ => resp_only_access_token.

Definition srv_no_access_token : token_server :=
  fun _ => {| status_code := 200; content := "";
              json_body := [("token_type", PStr "Bearer")] |}.

Lemma create_example_server :
  _create_callback_server example_platform example_client = Ok example_server.
Proof. vm_compute. reflexivity. Qed.

(** The URL the flow of [example_client] opens. *)
Definition example_authorization_url : string :=
  "https://auth.example.com/oauth2/authorize?client_id=flytepropeller&response_type=code&scope=all&redirect_uri=http%3A%2F%2Flocalhost%3A53593%2Fcallback&state=S1&code_challenge=challenge&code_challenge_method=S256".

Lemma example_client_authorization_url :
  authorization_url example_platform example_client = Ok example_authorization_url.
Proof. vm_compute. reflexivity. Qed.

Lemma state_mismatch_no_token_request_witness :
  get_creds_from_remote example_platform example_client ["/callback?code=XYZ&state=S2"]
    srv_tok =
    match authorization_url example_platform example_client with
    | Ok url => (Raised (ValueError (msg_unexpected_state "S2")), example_client,
                 [OpenNewTab url])
    | Err e => (Raised e, example_client, [])
    end.
Proof.
  apply (state_mismatch_no_token_request example_platform example_client
           ["/callback?code=XYZ&state=S2"] srv_tok example_server
           {| code := "XYZ"; state := "S2" |}).
  - vm_compute. reflexivity.
  - vm_compute. reflexivity.
  - cbn. discriminate.
Defined.

Lemma matching_state_exchanges_that_code_witness :
  exists req,
    snd (get_creds_from_remote example_platform example_client
           ["/callback?code=XYZ&state=S1"] srv_tok) =
      [OpenNewTab example_authorization_url; Post req] /\
    post_url req = _token_endpoint example_client /\
    dict_get "grant_type" (post_data req) = Some (PStr "authorization_code") /\
    dict_get "code" (post_data req) = Some (PStr "XYZ") /\
    dict_get "code_verifier" (post_data req) = Some (PStr (_code_verifier example_client)).
Proof.
  apply (matching_state_exchanges_that_code example_platform example_client
           ["/callback?code=XYZ&state=S1"] srv_tok example_server example_authorization_url
           {| code := "XYZ"; state := "S1" |}).
  - vm_compute. reflexivity.
  - vm_compute. reflexivity.
  - vm_compute. reflexivity.
  - reflexivity.
Defined.

Lemma token_response_without_access_token_fails_witness :
  (forall req, status_code (srv_no_access_token req) = 200%Z /\
               dict_get "access_token" (json_body (srv_no_access_token req)) = None) /\
  fst (fst (_request_access_token example_client {| code := "XYZ"; state := "S1" |}
              srv_no_access_token)) = Err (ValueError msg_expected_access_token).
Proof.
  assert (Hsrv : forall req, status_code (srv_no_access_token req) = 200%Z /\
               dict_get "access_token" (json_body (srv_no_access_token req)) = None)
    by (intros req; split; reflexivity).
  split; [exact Hsrv|].
  destruct (token_response_without_access_token_fails example_client
              {| code := "XYZ"; state := "S1" |}
              {| access_token := PStr "tok"; refresh_token := PStr "r";
                 for_endpoint := "dns:///flyte.example.com"; expires_in := PInt 3600 |}
              srv_no_access_token Hsrv) as (_ & H & _).
  apply H. reflexivity.
Defined.

(** The spec's example: a request for [/favicon.ico] before the callback.
    Nothing reaches the browser, and the callback that follows is not
    served: the flow waits forever on the empty queue. *)
Lemma non_matching_path_gets_no_response_witness :
  (let s' := listener_step example_platform example_server "/favicon.ico" in
   responses s' = responses example_server /\ queue s' = queue example_server /\
   srv_state s' = Closed /\
   run_listener example_platform example_server
     ["/favicon.ico"; "/callback?code=XYZ&state=S1"] = s') /\
  fst (fst (get_creds_from_remote example_platform example_client
              ["/favicon.ico"; "/callback?code=XYZ&state=S1"] srv_tok)) = Blocks.
Proof.
  split.
  - apply (non_matching_path_gets_no_response example_platform example_server "/favicon.ico"
             {| scheme := ""; netloc := ""; path := "/favicon.ico"; params := "";
                query := ""; fragment := "" |}
             ["/callback?code=XYZ&state=S1"]).
    + reflexivity.
    + vm_compute. reflexivity.
    + vm_compute. discriminate.
  - vm_compute. reflexivity.
Defined.

Lemma listener_serves_at_most_one_callback_witness :
  let s' := run_listener example_platform example_server
              ["/callback?code=XYZ&state=S1"; "/callback?code=ABC&state=S1"] in
  (length (queue s') <= 1)%nat /\
  (forall ac, queue s' = [ac] -> srv_state s' = Closed /\ socket_open s' = false) /\
  (srv_state s' = Closed -> forall later, run_listener example_platform s' later = s').
Proof.
  apply (listener_serves_at_most_one_callback example_platform example_client example_server).
  vm_compute. reflexivity.
Defined.

Definition example_world : world :=
  {| _instances := <["dns:///flyte.example.com" := 0%nat]> ∅;
     heap := <[0%nat := example_client]> ∅;
     next_loc := 1 |}.

Lemma request_access_token_mutates_shared_params_witness :
  exists r posts w' c',
    invoke_request_access_token example_world 0 {| code := "XYZ"; state := "S1" |} srv_tok
      = Some (r, posts, w') /\
    heap w' !! 0%nat = Some c' /\
    dict_get "code" (_params c') = Some (Some "XYZ") /\
    dict_get "code_verifier" (_params c') = Some (Some (_code_verifier example_client)) /\
    dict_get "grant_type" (_params c') = Some (Some "authorization_code") /\
    authorization_url example_platform c' =
      match urlparse example_platform (_auth_endpoint example_client) with
      | Ok u => Ok (urlunparse (scheme u) (netloc u) (path u) (urlencode (_params c')))
      | Err e => Err e
      end /\
    In ("code=" ++ quote_plus "XYZ") (urlencode_fields (_params c')) /\
    In ("code_verifier=" ++ quote_plus (_code_verifier example_client))
       (urlencode_fields (_params c')) /\
    In "grant_type=authorization_code" (urlencode_fields (_params c')) /\
    (dict_get "grant_type" (_params example_client) = None ->
     _params c' <> _params example_client) /\
    (forall key, _instances example_world !! key = Some 0%nat ->
       hd_error (ca_args (positional_call "dns:///flyte.example.com" example_auth_endpoint))
         = Some key ->
       AuthorizationClient_call (fun b => b) example_platform w'
         (positional_call "dns:///flyte.example.com" example_auth_endpoint)
         random_64 random_40 = (Ok 0%nat, w')).
Proof.
  apply (request_access_token_mutates_shared_params (fun b => b) example_platform
           example_world 0 example_client {| code := "XYZ"; state := "S1" |} srv_tok
           (positional_call "dns:///flyte.example.com" example_auth_endpoint)
           random_64 random_40).
  - reflexivity.
  - reflexivity.
Defined.

(* ================================================================== *)
(** * Further properties of the module *)

(* ------------------------------------------------------------------ *)
(** ** PKCE helpers: alphabet and lengths *)

Lemma b64_char_in_alphabet (x : Z) : In (b64_char x) b64_alphabet.
Proof.
  unfold b64_char.
  destruct (nth_in_or_default (Z.to_nat (Z.land x 63)) b64_alphabet "A"%char) as [H|H];
    [exact H | rewrite H; cbn; auto].
Qed.

(** Every character of an encoding is of the url-safe alphabet or [=]. *)
Lemma b64_encoding_chars (bs : list Byte.byte) :
  Forall (fun c => In c b64_alphabet \/ c = "="%char) (urlsafe_b64encode bs).
Proof.
  revert bs. fix IH 1. intros [|b1 [|b2 [|b3 bs]]]; cbn [urlsafe_b64encode];
    repeat (apply List.Forall_cons;
            [first [left; apply b64_char_in_alphabet | right; reflexivity] |]);
    first [apply List.Forall_nil | apply IH].
Qed.

(** Any filter that keeps the alphabet and drops [=] keeps [4k+2]
    characters of [3k+1] bytes and [4k+3] of [3k+2]. *)
Lemma filter_b64_length (p : ascii -> bool) :
  (forall c, In c b64_alphabet -> p c = true) -> p "="%char = false ->
  forall k bs,
    (length bs = 3 * k + 1 -> length (List.filter p (urlsafe_b64encode bs)) = 4 * k + 2) /\
    (length bs = 3 * k + 2 -> length (List.filter p (urlsafe_b64encode bs)) = 4 * k + 3).
Proof.
  intros Hp Heq. induction k as [|k IH]; intros bs; split; intros Hlen.
  - destruct bs as [|b1 [|b2 bs]]; cbn [length] in Hlen; try lia.
    cbn [urlsafe_b64encode List.filter]. rewrite !Hp by apply b64_char_in_alphabet.
    rewrite Heq. reflexivity.
  - destruct bs as [|b1 [|b2 [|b3 bs]]]; cbn [length] in Hlen; try lia.
    cbn [urlsafe_b64encode List.filter]. rewrite !Hp by apply b64_char_in_alphabet.
    rewrite Heq. reflexivity.
  - destruct bs as [|b1 [|b2 [|b3 bs]]]; cbn [length] in Hlen; try lia.
    cbn [urlsafe_b64encode List.filter]. rewrite !Hp by apply b64_char_in_alphabet.
    cbn [length]. rewrite (proj1 (IH bs)) by lia. lia.
  - destruct bs as [|b1 [|b2 [|b3 bs]]]; cbn [length] in Hlen; try lia.
    cbn [urlsafe_b64encode List.filter]. rewrite !Hp by apply b64_char_in_alphabet.
    cbn [length]. rewrite (proj2 (IH bs)) by lia. lia.
Qed.

Lemma filter_b64_chars (p : ascii -> bool) (bs : list Byte.byte) :
  p "="%char = false ->
  Forall (fun c => In c b64_alphabet) (List.filter p (urlsafe_b64encode bs)).
Proof.
  intros Heq. apply List.Forall_forall. intros c Hc.
  apply filter_In in Hc as [Hin Hpc].
  pose proof (proj1 (List.Forall_forall _ _) (b64_encoding_chars bs) c Hin) as [H|H]; [exact H|].
  subst c. congruence.
Qed.

Lemma alphabet_state_char (c : ascii) : In c b64_alphabet -> state_char c = true.
Proof.
  intros H. assert (Hall : forallb state_char b64_alphabet = true) by reflexivity.
  rewrite forallb_forall in Hall. now apply Hall.
Qed.

Lemma alphabet_not_eq_char (c : ascii) :
  In c b64_alphabet -> negb (Ascii.eqb "="%char c) = true.
Proof.
  intros H. assert (Hall : forallb (fun d => negb (Ascii.eqb "="%char d)) b64_alphabet = true)
    by reflexivity.
  rewrite forallb_forall in Hall. now apply Hall.
Qed.

(** [_generate_state_parameter] keeps the url-safe alphabet and drops the
    padding: on the 40 bytes it draws, the state has 54 characters, all
    of [A-Za-z0-9-_]. *)
Theorem state_parameter_shape (urandom : list Byte.byte) :
  Forall (fun c => In c b64_alphabet) (chars (_generate_state_parameter urandom)) /\
  (length urandom = _random_seed_length ->
   String.length (_generate_state_parameter urandom) = 54%nat).
Proof.
  unfold _generate_state_parameter, clean_state. rewrite chars_of_chars, chars_of_chars.
  split.
  - now apply filter_b64_chars.
  - intros H. rewrite length_of_chars.
    apply (proj1 (filter_b64_length state_char alphabet_state_char eq_refl 13 urandom)).
    unfold _random_seed_length in H. lia.
Qed.

(** [_create_code_challenge] of a 32-byte digest (SHA-256's size) has 43
    characters of [A-Za-z0-9-_]: the one padding [=] is removed. *)
Theorem code_challenge_shape (sha256 : list Byte.byte -> list Byte.byte) (v : string) :
  Forall (fun c => In c b64_alphabet) (chars (_create_code_challenge sha256 v)) /\
  (length (sha256 (encode_utf8 v)) = 32%nat ->
   String.length (_create_code_challenge sha256 v) = 43%nat).
Proof.
  unfold _create_code_challenge, remove_char. rewrite chars_of_chars, chars_of_chars.
  split.
  - now apply filter_b64_chars.
  - intros H. rewrite length_of_chars.
    apply (proj2 (filter_b64_length _ alphabet_not_eq_char eq_refl 10 _)). lia.
Qed.

(** A verifier [_generate_code_verifier] returns uses only [A-Za-z0-9-_]:
    the [.] and [~] its filter admits never occur. *)
Theorem code_verifier_alphabet (urandom : list Byte.byte) (v : string) :
  _generate_code_verifier urandom = Ok v ->
  Forall (fun c => In c b64_alphabet) (chars v).
Proof.
  unfold _generate_code_verifier.
  destruct (_ <? 43)%nat; [discriminate|]. destruct (128 <? _)%nat; [discriminate|].
  intros H. injection H as <-. unfold clean_verifier. rewrite !chars_of_chars.
  now apply filter_b64_chars.
Qed.

(* ------------------------------------------------------------------ *)
(** ** [__init__] and the per-endpoint registry *)

(** The key [_SingletonPerEndpoint.__call__] computes. *)
Definition singleton_key (ca : call_args) : result string :=
  match ca_args ca with
  | a0 :: _ => Ok a0
  | [] =>
      match dict_get "auth_endpoint" (ca_kwargs ca) with
      | Some e => Ok e
      | None => Err (ValueError msg_auth_endpoint_required)
      end
  end.

Lemma call_by_key (sha256 : list Byte.byte -> list Byte.byte) (pf : platform) (w : world)
    (ca : call_args) (rv rs : list Byte.byte) :
  AuthorizationClient_call sha256 pf w ca rv rs =
  match singleton_key ca with
  | Err e => (Err e, w)
  | Ok endpoint =>
      match _instances w !! endpoint with
      | Some l => (Ok l, w)
      | None =>
          match AuthorizationClient_init sha256 pf ca rv rs with
          | Err e => (Err e, w)
          | Ok c =>
              let l := next_loc w in
              (Ok l, {| _instances := <[endpoint := l]> (_instances w);
                        heap := <[l := c]> (heap w);
                        next_loc := S l |})
          end
      end
  end.
Proof. reflexivity. Qed.

(** [__init__] with its three endpoints bound, 64 random bytes and an
    [auth_endpoint] that parses (or [endpoint_metadata] given) builds a
    client whose parameter dict carries its own state and the challenge
    of its own 86-character verifier with method [S256], holds no token
    grant field yet, and whose metadata defaults to the auth endpoint's
    host. *)
Theorem init_fresh_pkce_parameters
    (sha256 : list Byte.byte -> list Byte.byte) (pf : platform) (ca : call_args)
    (rv rs : list Byte.byte) (e a t : string) :
  bind_endpoints ca = Ok (e, a, t) ->
  length rv = _code_verifier_length ->
  (ca_endpoint_metadata ca = None -> exists r, urlparse pf a = Ok r) ->
  exists c,
    AuthorizationClient_init sha256 pf ca rv rs = Ok c /\
    _endpoint c = e /\ _auth_endpoint c = a /\ _token_endpoint c = t /\
    String.length (_code_verifier c) = 86%nat /\
    _code_challenge c = _create_code_challenge sha256 (_code_verifier c) /\
    _state c = _generate_state_parameter rs /\
    dict_get "state" (_params c) = Some (Some (_state c)) /\
    dict_get "code_challenge" (_params c) = Some (Some (_code_challenge c)) /\
    dict_get "code_challenge_method" (_params c) = Some (Some "S256") /\
    dict_get "response_type" (_params c) = Some (Some "code") /\
    dict_get "code" (_params c) = None /\
    dict_get "grant_type" (_params c) = None /\
    (forall r, ca_endpoint_metadata ca = None -> urlparse pf a = Ok r ->
       md_endpoint (_remote c) = hostname r) /\
    (forall m, ca_endpoint_metadata ca = Some m -> _remote c = m).
Proof.
  intros Hb Hrv Hp.
  pose proof (clean_verifier_length_64 rv Hrv) as H86.
  assert (Hv : _generate_code_verifier rv = Ok (clean_verifier (of_chars (urlsafe_b64encode rv)))).
  { unfold _generate_code_verifier. rewrite H86. reflexivity. }
  unfold AuthorizationClient_init. rewrite Hb.
  destruct (ca_endpoint_metadata ca) as [m|] eqn:Em.
  - rewrite Hv. eexists. split; [reflexivity|]. cbn.
    repeat split; try assumption; intros; congruence.
  - destruct (Hp eq_refl) as [r Hr]. rewrite Hr, Hv.
    eexists. split; [reflexivity|]. cbn.
    repeat split; try assumption; intros; congruence.
Qed.

(** Without [endpoint_metadata], an [auth_endpoint] that [urlparse]
    rejects (an unmatched bracket in its netloc, a bracketed host that is
    not an IPv6 address) makes [__init__] raise that [ValueError], and a
    construction that would register it registers nothing. *)
Theorem init_rejects_unparsable_auth_endpoint
    (sha256 : list Byte.byte -> list Byte.byte) (pf : platform) (w : world)
    (ca : call_args) (rv rs : list Byte.byte) (e a t : string) (err : exn) :
  bind_endpoints ca = Ok (e, a, t) ->
  ca_endpoint_metadata ca = None ->
  urlparse pf a = Err err ->
  AuthorizationClient_init sha256 pf ca rv rs = Err err /\
  (forall k, singleton_key ca = Ok k -> _instances w !! k = None ->
     AuthorizationClient_call sha256 pf w ca rv rs = (Err err, w)).
Proof.
  intros Hb Hm Hp.
  assert (Hi : AuthorizationClient_init sha256 pf ca rv rs = Err err).
  { unfold AuthorizationClient_init. rewrite Hb, Hm, Hp. reflexivity. }
  split; [exact Hi|].
  intros k Hk Hn. rewrite call_by_key, Hk, Hn, Hi. reflexivity.
Qed.

(** A construction that raises leaves the registry and the heap as they
    were; with no positional argument and no [auth_endpoint] keyword it
    raises the [auth_endpoint] [ValueError]. *)
Theorem failed_construction_registers_nothing
    (sha256 : list Byte.byte -> list Byte.byte) (pf : platform) (w : world)
    (ca : call_args) (rv rs : list Byte.byte) :
  (forall e, fst (AuthorizationClient_call sha256 pf w ca rv rs) = Err e ->
     snd (AuthorizationClient_call sha256 pf w ca rv rs) = w) /\
  (ca_args ca = [] -> dict_get "auth_endpoint" (ca_kwargs ca) = None ->
   AuthorizationClient_call sha256 pf w ca rv rs =
     (Err (ValueError msg_auth_endpoint_required), w)).
Proof.
  split.
  - intros e. rewrite call_by_key.
    destruct (singleton_key ca) as [k|e']; [|reflexivity].
    destruct (_instances w !! k); [discriminate|].
    destruct (AuthorizationClient_init sha256 pf ca rv rs); [discriminate|reflexivity].
  - intros Ha Hk. unfold AuthorizationClient_call. now rewrite Ha, Hk.
Qed.

(** A construction never changes an entry of [_instances]: every key
    keeps the object it had; a construction that returns an object has
    its key registered to that object; one that raises changes nothing. *)
Theorem construction_never_overwrites_registry
    (sha256 : list Byte.byte -> list Byte.byte) (pf : platform) (w : world)
    (ca : call_args) (rv rs : list Byte.byte) :
  let '(r, w') := AuthorizationClient_call sha256 pf w ca rv rs in
  (forall k l, _instances w !! k = Some l -> _instances w' !! k = Some l) /\
  (forall l, r = Ok l -> exists k, singleton_key ca = Ok k /\ _instances w' !! k = Some l) /\
  (forall e, r = Err e -> w' = w).
Proof.
  rewrite call_by_key.
  destruct (singleton_key ca) as [k|e] eqn:Ek.
  2: { split; [auto|split; [discriminate|auto]]. }
  destruct (_instances w !! k) as [l0|] eqn:Hk.
  { split; [auto|split; [|discriminate]].
    intros l H. injection H as <-. exists k. auto. }
  destruct (AuthorizationClient_init sha256 pf ca rv rs) as [c|e];
    [|split; [auto|split; [discriminate|auto]]].
  cbn [_instances]. split; [|split].
  - intros k' l H. rewrite lookup_insert_ne; [exact H|].
    intros Heq. subst k'. congruence.
  - intros l H. injection H as <-. exists k. split; [reflexivity|]. apply lookup_insert_eq.
  - discriminate.
Qed.

(** A successful construction is idempotent: calling again with the same
    arguments returns the same object and leaves everything unchanged,
    whatever fresh random bytes the call would draw (no new PKCE
    parameters). *)
Theorem construction_idempotent
    (sha256 : list Byte.byte -> list Byte.byte) (pf : platform) (w w' : world)
    (ca : call_args) (rv rs rv' rs' : list Byte.byte) (l : loc) :
  AuthorizationClient_call sha256 pf w ca rv rs = (Ok l, w') ->
  AuthorizationClient_call sha256 pf w' ca rv' rs' = (Ok l, w').
Proof.
  rewrite !call_by_key.
  destruct (singleton_key ca) as [k|e]; [|discriminate].
  destruct (_instances w !! k) as [l0|] eqn:Hk.
  - intros H. injection H as <- <-. now rewrite Hk.
  - destruct (AuthorizationClient_init sha256 pf ca rv rs) as [c|e]; [|discriminate].
    intros H. injection H as <- <-. cbn [_instances]. now rewrite lookup_insert_eq.
Qed.

(* ------------------------------------------------------------------ *)
(** ** The callback and the flow *)

Lemma find_app {A} (f : A -> bool) (l1 l2 : list A) :
  List.find f (l1 ++ l2) = match List.find f l1 with Some x => Some x | None => List.find f l2 end.
Proof.
  induction l1 as [|x l1 IH]; [reflexivity|]. cbn. destruct (f x); [reflexivity|exact IH].
Qed.

(** [dict(pairs)]: the last pair with the key gives the value. *)
Lemma dict_of_pairs_last {V} (k : string) (ps : list (string * V)) :
  dict_get k (dict_of_pairs ps) =
  option_map snd (List.find (fun kv => String.eqb k kv.1) (rev ps)).
Proof.
  unfold dict_of_pairs.
  enough (H : forall d, dict_get k (dict_update d ps) =
    match List.find (fun kv => String.eqb k kv.1) (rev ps) with
    | Some kv => Some kv.2 | None => dict_get k d end).
  { rewrite H. destruct (List.find _ _); reflexivity. }
  induction ps as [|[k' v'] ps IH]; intros d; [reflexivity|].
  change (dict_update d ((k', v') :: ps)) with (dict_update (dict_set k' v' d) ps).
  rewrite IH. cbn [rev]. rewrite find_app.
  destruct (List.find _ (rev ps)) as [kv|]; [reflexivity|]. cbn.
  destruct (String.eqb k k') eqn:E.
  - apply String.eqb_eq in E. subst k'. apply dict_get_set_eq.
  - apply dict_get_set_ne. now apply String.eqb_neq.
Qed.

(** [do_GET] on the redirect path takes the last [code] and the last
    [state] of the query ([dict(parse_qsl(...))] keeps the last of a
    repeated key): the 200 reaches the client, that code is put on the
    queue and the socket is closed. *)
Theorem callback_uses_last_code_and_state
    (pf : platform) (s : OAuthHTTPServer) (p : string) (u : ParseResult) (cd st : string) :
  urlparse pf p = Ok u ->
  String.eqb (py_strip "/" (path u)) (py_strip "/" (redirect_path s)) = true ->
  option_map snd (List.find (fun kv => String.eqb "code" kv.1)
                    (rev (parse_qsl (query u)))) = Some cd ->
  option_map snd (List.find (fun kv => String.eqb "state" kv.1)
                    (rev (parse_qsl (query u)))) = Some st ->
  do_GET pf s p = with_server s (srv_state s) false
                    (queue s ++ [{| code := cd; state := st |}])%list
                    (responses s ++ [HTTP_OK])%list.
Proof.
  intros Hu Hp Hc Hs. unfold do_GET. rewrite Hu, Hp. unfold handle_login.
  rewrite !dict_of_pairs_last, Hc, Hs. reflexivity.
Qed.

(** Once the server is bound and the browser opened, a first request
    that is not a full callback (it does not parse, or has another path,
    or no [code] or no [state] in its query, as in an authorization
    server's [error=access_denied] redirect) leaves
    [get_creds_from_remote] waiting forever: nothing is posted and the
    object is unchanged, whatever arrives later. *)
Theorem incomplete_callback_blocks_flow
    (pf : platform) (c : AuthorizationClient) (s : OAuthHTTPServer) (url p : string)
    (rest : list string) (srv : token_server) :
  _create_callback_server pf c = Ok s ->
  authorization_url pf c = Ok url ->
  (forall u, urlparse pf p = Ok u ->
     let data := dict_of_pairs (parse_qsl (query u)) in
     String.eqb (py_strip "/" (path u)) (py_strip "/" (redirect_path s)) = false \/
     dict_get "code" data = None \/ dict_get "state" data = None) ->
  get_creds_from_remote pf c (p :: rest) srv = (Blocks, c, [OpenNewTab url]).
Proof.
  intros Hc Hurl Hq.
  destruct (create_callback_server_fresh pf c s Hc) as (Hl & Hqu & _).
  unfold get_creds_from_remote. rewrite Hc, Hurl.
  unfold delivered. rewrite run_listener_cons. unfold listener_step. rewrite Hl.
  unfold do_GET.
  destruct (urlparse pf p) as [u|e] eqn:Eu; [|cbn [queue with_server]; rewrite Hqu; reflexivity].
  destruct (Hq u eq_refl) as [H|[H|H]]; cbv zeta in H.
  - rewrite H. cbn [queue with_server finish_request]. rewrite Hqu. reflexivity.
  - destruct (String.eqb _ _); [|cbn [queue with_server finish_request]; rewrite Hqu; reflexivity].
    unfold handle_login. rewrite H. cbn [queue with_server finish_request].
    rewrite Hqu. reflexivity.
  - destruct (String.eqb _ _); [|cbn [queue with_server finish_request]; rewrite Hqu; reflexivity].
    unfold handle_login. rewrite H.
    destruct (dict_get "code" _); cbn [queue with_server finish_request]; rewrite Hqu;
      reflexivity.
Qed.

(** When [_create_callback_server] fails the flow raises its exception
    before the browser is opened or anything is posted, and the object is
    unchanged: without a [redirect_uri], or one with no host, binding
    [(None, port)] raises [TypeError]; one with a host and no port binds
    [(host, None)], which raises the other [TypeError]; an unparsable
    [redirect_uri] or port raises its [ValueError]; an address the system
    does not bind raises what [bind] raised. *)
Theorem callback_server_failure_raises
    (pf : platform) (c : AuthorizationClient) (inbound : list string) (srv : token_server) :
  (_redirect_uri c = None ->
   get_creds_from_remote pf c inbound srv =
     (Raised (TypeError "str, bytes or bytearray expected, not NoneType"), c, [])) /\
  (forall u e, _redirect_uri c = Some u -> urlparse pf u = Err e ->
   get_creds_from_remote pf c inbound srv = (Raised e, c, [])) /\
  (forall u r e, _redirect_uri c = Some u -> urlparse pf u = Ok r -> port r = Err e ->
   get_creds_from_remote pf c inbound srv = (Raised e, c, [])) /\
  (forall u r prt, _redirect_uri c = Some u -> urlparse pf u = Ok r -> port r = Ok prt ->
   hostname r = None ->
   get_creds_from_remote pf c inbound srv =
     (Raised (TypeError "str, bytes or bytearray expected, not NoneType"), c, [])) /\
  (forall u r h, _redirect_uri c = Some u -> urlparse pf u = Ok r -> hostname r = Some h ->
   port r = Ok None ->
   get_creds_from_remote pf c inbound srv =
     (Raised (TypeError "'NoneType' object cannot be interpreted as an integer"), c, [])) /\
  (forall u r h n e, _redirect_uri c = Some u -> urlparse pf u = Ok r ->
   hostname r = Some h -> port r = Ok (Some n) -> os_bind pf h n = Some e ->
   get_creds_from_remote pf c inbound srv = (Raised e, c, [])).
Proof.
  unfold get_creds_from_remote, _create_callback_server.
  split; [intros Hu; rewrite Hu; reflexivity|].
  split; [intros u e Hu Hp; rewrite Hu, Hp; reflexivity|].
  split; [intros u r e Hu Hp Hport; rewrite Hu, Hp, Hport; reflexivity|].
  split; [intros u r prt Hu Hp Hport Hh; rewrite Hu, Hp, Hport; unfold socket_bind;
          rewrite Hh; reflexivity|].
  split; [intros u r h Hu Hp Hh Hport; rewrite Hu, Hp, Hport; unfold socket_bind;
          rewrite Hh; reflexivity|].
  intros u r h n e Hu Hp Hh Hport Hb. rewrite Hu, Hp, Hport. unfold socket_bind.
  rewrite Hh, Hb. reflexivity.
Qed.

(** A token endpoint that answers anything but 200 makes
    [_request_access_token] raise [Exception] with the status and body,
    after exactly one POST; the grant fields stay in [self._params]. *)
Theorem token_exchange_non_200_raises
    (c : AuthorizationClient) (ac : AuthorizationCode) (srv : token_server) :
  _state c = state ac ->
  (forall req, status_code (srv req) <> 200%Z) ->
  let '(r, c', posts) := _request_access_token c ac srv in
  exists req, posts = [req] /\ post_url req = _token_endpoint c /\
    r = Err (Exception (msg_failed_token (status_code (srv req)) (content (srv req)))) /\
    dict_get "code" (_params c') = Some (Some (code ac)) /\
    dict_get "code_verifier" (_params c') = Some (Some (_code_verifier c)) /\
    dict_get "grant_type" (_params c') = Some (Some "authorization_code").
Proof.
  intros Hst Hsrv. unfold _request_access_token. rewrite Hst, String.eqb_refl. cbn [negb].
  match goal with |- context [srv ?rq] => set (req := rq) end.
  destruct (Z.eqb (status_code (srv req)) 200) eqn:E.
  { apply Z.eqb_eq in E. exfalso. exact (Hsrv req E). }
  cbn [negb]. exists req. split; [reflexivity|]. split; [reflexivity|]. split; [reflexivity|].
  apply token_grant_fields.
Qed.

(** [refresh_access_token] with a refresh token sends exactly one POST
    to the token endpoint, with only the refresh grant, the client id and
    the refresh token as data, no redirects followed; a non-200 answer
    raises [AccessTokenNotFoundError] with the status, a 200 answer is
    parsed as the exchange's. *)
Theorem refresh_posts_refresh_grant
    (c : AuthorizationClient) (cr : Credentials) (srv : token_server) :
  refresh_token cr <> PNone ->
  let '(r, posts) := refresh_access_token c cr srv in
  exists req, posts = [req] /\ post_url req = _token_endpoint c /\
    post_data req = [("grant_type", PStr "refresh_token");
                     ("client_id", py_of_opt (_client_id c));
                     ("refresh_token", refresh_token cr)] /\
    post_headers req = _headers c /\ post_allow_redirects req = false /\
    post_verify req = _verify c /\
    (status_code (srv req) <> 200%Z ->
     r = Err (AccessTokenNotFoundError (msg_refresh_non_200 (status_code (srv req))))) /\
    (status_code (srv req) = 200%Z -> r = _credentials_from_response c (srv req)).
Proof.
  intros Hrt. unfold refresh_access_token.
  destruct (refresh_token cr) as [| | | | |] eqn:Ert; try (exfalso; exact (Hrt eq_refl));
  (match goal with |- context [srv ?rq] => set (req := rq) end;
   destruct (Z.eqb_spec (status_code (srv req)) 200) as [E|E];
   cbv beta iota zeta delta [negb];
   exists req; repeat split; intros; first [reflexivity | congruence]).
Qed.

(** A state mismatch neither posts nor changes the shared object: the
    whole world is as before. *)
Theorem state_mismatch_leaves_world_unchanged
    (w : world) (l : loc) (c : AuthorizationClient) (ac : AuthorizationCode)
    (srv : token_server) :
  heap w !! l = Some c -> _state c <> state ac ->
  invoke_request_access_token w l ac srv =
    Some (Err (ValueError (msg_unexpected_state (state ac))), [], w).
Proof.
  intros Hl Hne. unfold invoke_request_access_token. rewrite Hl.
  unfold _request_access_token. apply String.eqb_neq in Hne. rewrite Hne. cbn [negb].
  rewrite insert_id by exact Hl. destruct w; reflexivity.
Qed.

Lemma dict_set_keys {V} (k : string) (v : V) (d : list (string * V)) :
  dict_get k d <> None -> map fst (dict_set k v d) = map fst d.
Proof.
  induction d as [|[k' v'] d IH]; cbn; [congruence|].
  destruct (String.eqb k k') eqn:E; cbn.
  - intros _. apply String.eqb_eq in E. now subst.
  - intros H. now rewrite IH.
Qed.

Lemma dict_set_present {V} (k k' : string) (v : V) (d : list (string * V)) :
  dict_get k d <> None -> dict_get k (dict_set k' v d) <> None.
Proof.
  intros H. destruct (String.eqb_spec k k') as [->|Hne].
  - now rewrite dict_get_set_eq.
  - now rewrite dict_get_set_ne.
Qed.

(** A second exchange on the same object (a second flow on the
    singleton) adds no parameter: the keys are those after the first
    one, and the new code replaces the old one. *)
Theorem second_exchange_replaces_code
    (c : AuthorizationClient) (ac1 ac2 : AuthorizationCode) (srv1 srv2 : token_server) :
  _state c = state ac1 -> _state c = state ac2 ->
  let c1 := snd (fst (_request_access_token c ac1 srv1)) in
  let c2 := snd (fst (_request_access_token c1 ac2 srv2)) in
  map fst (_params c2) = map fst (_params c1) /\
  dict_get "code" (_params c2) = Some (Some (code ac2)).
Proof.
  intros H1 H2 c1 c2.
  assert (Hc1 : _params c1 = dict_update (_params c)
                 [("code", Some (code ac1)); ("code_verifier", Some (_code_verifier c));
                  ("grant_type", Some "authorization_code")] /\
               _state c1 = _state c /\ _code_verifier c1 = _code_verifier c).
  { unfold c1, _request_access_token. rewrite H1, String.eqb_refl. cbn [negb].
    destruct (negb _); auto. }
  destruct Hc1 as (Hp1 & Hs1 & Hv1).
  assert (Hc2 : _params c2 = dict_update (_params c1)
                 [("code", Some (code ac2)); ("code_verifier", Some (_code_verifier c1));
                  ("grant_type", Some "authorization_code")]).
  { unfold c2, _request_access_token. rewrite Hs1, H2, String.eqb_refl. cbn [negb].
    destruct (negb _); auto. }
  destruct (token_grant_fields (_params c) (Some (code ac1)) (Some (_code_verifier c))
              (Some "authorization_code")) as (Hk1 & Hk2 & Hk3).
  rewrite <- Hp1 in Hk1, Hk2, Hk3.
  split.
  - rewrite Hc2. unfold dict_update. cbn [fold_left fst snd].
    rewrite dict_set_keys, dict_set_keys, dict_set_keys; try congruence.
    + apply dict_set_present; congruence.
    + apply dict_set_present, dict_set_present; congruence.
  - rewrite Hc2. apply token_grant_fields.
Qed.

(* ------------------------------------------------------------------ *)
(** ** The query string: [urlencode] and [parse_qsl] *)

Lemma chars_app (s1 s2 : string) : chars (s1 ++ s2) = (chars s1 ++ chars s2)%list.
Proof.
  unfold chars. induction s1 as [|a s1 IH]; [reflexivity|].
  change (a :: list_ascii_of_string (s1 ++ s2) = a :: (list_ascii_of_string s1 ++ list_ascii_of_string s2))%list.
  now rewrite IH.
Qed.

Lemma of_chars_chars (s : string) : of_chars (chars s) = s.
Proof. apply string_of_list_ascii_of_string. Qed.

(** [unquote_plus] undoes [quote_plus] one character at a time. *)
Lemma unquote_quote_char (c : ascii) (rest : list ascii) :
  unquote_plus_l (quote_plus_char c ++ rest) = c :: unquote_plus_l rest.
Proof.
  destruct c as [b0 b1 b2 b3 b4 b5 b6 b7];
    destruct b0, b1, b2, b3, b4, b5, b6, b7; reflexivity.
Qed.

Lemma quote_plus_char_no_sep (c : ascii) :
  existsb (fun d => Ascii.eqb d "&"%char || Ascii.eqb d "="%char) (quote_plus_char c) = false.
Proof.
  destruct c as [b0 b1 b2 b3 b4 b5 b6 b7];
    destruct b0, b1, b2, b3, b4, b5, b6, b7; reflexivity.
Qed.

Lemma quote_plus_char_nonempty (c : ascii) : quote_plus_char c <> [].
Proof.
  unfold quote_plus_char.
  destruct (_ || _); [discriminate|]. destruct (Ascii.eqb _ _); discriminate.
Qed.

Lemma unquote_quote (l : list ascii) :
  unquote_plus_l (flat_map quote_plus_char l) = l.
Proof.
  induction l as [|c l IH]; [reflexivity|].
  cbn [flat_map]. now rewrite unquote_quote_char, IH.
Qed.

Lemma quote_no_sep (l : list ascii) (d : ascii) :
  In d (flat_map quote_plus_char l) -> d <> "&"%char /\ d <> "="%char.
Proof.
  intros H. apply in_flat_map in H as [c [_ Hc]].
  pose proof (quote_plus_char_no_sep c) as Hn.
  split; intros ->;
    assert (He : existsb (fun d => Ascii.eqb d "&"%char || Ascii.eqb d "="%char)
                   (quote_plus_char c) = true) by (apply existsb_exists; eauto);
    congruence.
Qed.

Lemma split_all_no_sep (c : ascii) (l : list ascii) :
  ~ In c l -> split_all c l = [l].
Proof.
  induction l as [|d l IH]; intros Hn; [reflexivity|]. cbn.
  destruct (Ascii.eqb_spec c d) as [->|_]; [exfalso; apply Hn; now left|].
  rewrite IH; [reflexivity|]. intros H. apply Hn. now right.
Qed.

Lemma split_all_app (c : ascii) (l r : list ascii) :
  ~ In c l -> split_all c (l ++ c :: r) = l :: split_all c r.
Proof.
  induction l as [|d l IH]; intros Hn; cbn.
  - now rewrite Ascii.eqb_refl.
  - destruct (Ascii.eqb_spec c d) as [->|_]; [exfalso; apply Hn; now left|].
    rewrite IH; [reflexivity|]. intros H. apply Hn. now right.
Qed.

Lemma split_first_app (c : ascii) (l r : list ascii) :
  ~ In c l -> split_first c (l ++ c :: r) = Some (l, r).
Proof.
  induction l as [|d l IH]; intros Hn; cbn.
  - now rewrite Ascii.eqb_refl.
  - destruct (Ascii.eqb_spec c d) as [->|_]; [exfalso; apply Hn; now left|].
    rewrite IH; [reflexivity|]. intros H. apply Hn. now right.
Qed.

Lemma unquote_plus_quote (s : string) :
  unquote_plus (flat_map quote_plus_char (chars s)) = s.
Proof. unfold unquote_plus. now rewrite unquote_quote, of_chars_chars. Qed.

Definition qs_field (kv : string * option string) : string :=
  quote_plus kv.1 ++ "=" ++ quote_plus (py_str_opt kv.2).

Lemma chars_quote_plus (s : string) : chars (quote_plus s) = flat_map quote_plus_char (chars s).
Proof. apply chars_of_chars. Qed.

Lemma chars_qs_field (kv : string * option string) :
  chars (qs_field kv) =
  (flat_map quote_plus_char (chars kv.1) ++
   "="%char :: flat_map quote_plus_char (chars (py_str_opt kv.2)))%list.
Proof. unfold qs_field. rewrite !chars_app, !chars_quote_plus. reflexivity. Qed.

Lemma qs_field_no_amp (kv : string * option string) : ~ In "&"%char (chars (qs_field kv)).
Proof.
  rewrite chars_qs_field. intros H. apply in_app_or in H as [H|[H|H]].
  - now apply quote_no_sep in H.
  - discriminate.
  - now apply quote_no_sep in H.
Qed.

Lemma split_fields (d : list (string * option string)) :
  d <> [] ->
  split_all "&" (chars (urlencode d)) = map (fun kv => chars (qs_field kv)) d.
Proof.
  unfold urlencode, urlencode_fields. fold qs_field.
  induction d as [|kv d IH]; intros Hd; [congruence|].
  destruct d as [|kv' d].
  - cbn [map String.concat]. apply split_all_no_sep, qs_field_no_amp.
  - change (String.concat "&" (map qs_field (kv :: kv' :: d)))
      with (qs_field kv ++ "&" ++ String.concat "&" (map qs_field (kv' :: d))).
    rewrite !chars_app. change (chars "&") with ["&"%char]. cbn [app].
    rewrite split_all_app by apply qs_field_no_amp.
    rewrite IH by discriminate. reflexivity.
Qed.

(** [parse_qsl(urlencode(d))]: the query [_request_authorization_code]
    builds decodes, as the callback handler decodes a query, to the
    pairs of [d] in order, each value as [str(v)], except those whose
    value is empty, which [parse_qsl] drops. *)
Theorem parse_qsl_urlencode (d : list (string * option string)) :
  parse_qsl (urlencode d) =
  List.filter (fun kv => negb (String.eqb kv.2 ""))
              (map (fun kv => (kv.1, py_str_opt kv.2)) d).
Proof.
  destruct d as [|kv0 d0] eqn:Ed; [reflexivity|]. rewrite <- Ed.
  unfold parse_qsl. rewrite split_fields by congruence. clear kv0 d0 Ed.
  induction d as [|kv d IH]; [reflexivity|].
  cbn [map List.filter omap list_omap]. rewrite chars_qs_field, split_first_app.
  2: { intros H. now apply quote_no_sep in H. }
  rewrite !unquote_plus_quote.
  destruct (py_str_opt kv.2) as [|a v].
  - cbn [chars list_ascii_of_string flat_map snd String.eqb negb]. exact IH.
  - destruct (flat_map quote_plus_char (chars (String a v))) eqn:E.
    + exfalso. change (chars (String a v)) with (a :: chars v) in E.
      cbn [flat_map] in E. apply app_eq_nil in E as [E _].
      exact (quote_plus_char_nonempty a E).
    + cbn [snd String.eqb negb]. now rewrite IH.
Qed.

(* ------------------------------------------------------------------ *)
(** ** The [scope] parameter *)

Lemma lstrip_id (cs : string) (l : list ascii) :
  forallb (fun ch => negb (in_chars ch cs)) l = true -> lstrip_l cs l = l.
Proof.
  destruct l as [|c l]; [reflexivity|]. cbn. intros H.
  apply andb_prop in H as [H _]. destruct (in_chars c cs); [discriminate|reflexivity].
Qed.

Lemma py_strip_id (cs s : string) :
  forallb (fun ch => negb (in_chars ch cs)) (chars s) = true -> py_strip cs s = s.
Proof.
  intros H. unfold py_strip. rewrite (lstrip_id cs (chars s) H).
  rewrite lstrip_id, rev_involutive; [apply of_chars_chars|].
  apply forallb_forall. intros ch Hin. apply in_rev in Hin.
  exact (proj1 (forallb_forall _ _) H ch Hin).
Qed.

Lemma in_chars_concat (sep : string) (xs : list string) (ch : ascii) :
  In ch (chars (String.concat sep xs)) ->
  In ch (chars sep) \/ exists x, In x xs /\ In ch (chars x).
Proof.
  induction xs as [|x xs IH]; [cbn; tauto|].
  destruct xs as [|x' xs].
  - intros H. right. exists x. split; [now left|exact H].
  - change (String.concat sep (x :: x' :: xs)) with (x ++ sep ++ String.concat sep (x' :: xs)).
    rewrite !chars_app. intros H. apply in_app_or in H as [H|H]; [right; exists x; split; [now left|exact H]|].
    apply in_app_or in H as [H|H]; [now left|].
    destruct (IH H) as [H'|[y [Hy H']]]; [now left|]. right. exists y. split; [now right|exact H'].
Qed.

(** Scopes without quotes, brackets or spaces reach the [scope]
    parameter unchanged, joined by single spaces (in the given order, an
    empty scope list giving the empty string). *)
Theorem scopes_joined_verbatim (scopes : list string) :
  forallb (fun s => forallb (fun ch => negb (in_chars ch "[]' ")) (chars s)) scopes = true ->
  scope_param scopes = String.concat " " scopes.
Proof.
  intros H. rewrite forallb_forall in H.
  assert (Hs : forall s ch, In s scopes -> In ch (chars s) -> in_chars ch "[]' " = false).
  { intros s ch Hs Hch. specialize (H s Hs). rewrite forallb_forall in H.
    specialize (H ch Hch). now destruct (in_chars ch "[]' "). }
  assert (Hsub : forall ch cs, in_chars ch "[]' " = false ->
                 (cs = "' " \/ cs = "[]'") -> in_chars ch cs = false).
  { intros ch cs Hc [->| ->]; unfold in_chars, chars in *;
      cbn [list_ascii_of_string existsb] in *;
      destruct (Ascii.eqb ch "["), (Ascii.eqb ch "]"), (Ascii.eqb ch "'"), (Ascii.eqb ch " ");
      cbn in *; congruence. }
  unfold scope_param.
  replace (map (py_strip "' ") scopes) with scopes.
  2: { clear H. induction scopes as [|s scopes IH]; [reflexivity|]. cbn [map].
       rewrite py_strip_id.
       - f_equal. apply IH. intros s' ch Hs' Hch. apply (Hs s' ch); [now right|exact Hch].
       - apply forallb_forall. intros ch Hch. rewrite (Hsub ch "' "); [reflexivity| |now left].
         apply (Hs s ch); [now left|exact Hch]. }
  apply py_strip_id, forallb_forall. intros ch Hch.
  destruct (in_chars_concat " " scopes ch Hch) as [Hsp|[s [Hin Hc]]].
  - destruct Hsp as [<-|[]]. reflexivity.
  - rewrite (Hsub ch "[]'"); [reflexivity| |now right]. exact (Hs s ch Hin Hc).
Qed.

(* ------------------------------------------------------------------ *)
(** ** A complete flow *)

(** Once the server is bound and the browser opened, a first request
    that is a full callback with the object's state, answered by the
    token endpoint with 200, an access token and an [expires_in], makes
    [get_creds_from_remote] return credentials for the object's endpoint
    after posting once. *)
Theorem successful_flow_returns_credentials
    (pf : platform) (c : AuthorizationClient) (s : OAuthHTTPServer) (url p : string)
    (u : ParseResult) (cd : string) (rest : list string) (srv : token_server)
    (at_ e : pyval) :
  _create_callback_server pf c = Ok s ->
  authorization_url pf c = Ok url ->
  urlparse pf p = Ok u ->
  let data := dict_of_pairs (parse_qsl (query u)) in
  py_strip "/" (path u) = py_strip "/" (redirect_path s) ->
  dict_get "code" data = Some cd -> dict_get "state" data = Some (_state c) ->
  (forall req, status_code (srv req) = 200%Z /\
               dict_get "access_token" (json_body (srv req)) = Some at_ /\
               dict_get "expires_in" (json_body (srv req)) = Some e) ->
  exists cr req,
    fst (fst (get_creds_from_remote pf c (p :: rest) srv)) = Returned cr /\
    snd (get_creds_from_remote pf c (p :: rest) srv) = [OpenNewTab url; Post req] /\
    access_token cr = at_ /\ expires_in cr = e /\ for_endpoint cr = _endpoint c /\
    dict_get "code" (post_data req) = Some (PStr cd).
Proof.
  intros Hc Hurl Hu data Hp Hcd Hs Hsrv.
  pose proof (delivered_first_callback pf c s p u rest cd (_state c) Hc Hu Hp Hcd Hs) as Hd.
  unfold get_creds_from_remote. rewrite Hc, Hurl, Hd.
  unfold _request_access_token. cbn [state code]. rewrite String.eqb_refl.
  cbn [negb].
  match goal with |- context [srv ?rq] => set (req := rq) end.
  destruct (Hsrv req) as (H200 & Ha & He). rewrite H200. cbn [Z.eqb negb].
  rewrite (credentials_from_response_with_expires_in _ _ at_ e Ha He).
  eexists _, req. cbn [fst snd outcome_of]. split; [reflexivity|]. split; [reflexivity|].
  split; [reflexivity|]. split; [reflexivity|]. split; [reflexivity|].
  unfold req. cbn [post_data _params set_params].
  rewrite dict_get_map. rewrite (proj1 (token_grant_fields _ _ _ _)). reflexivity.
Qed.

(* ------------------------------------------------------------------ *)
(** ** The further properties at concrete inputs *)

(** A digest function with SHA-256's output size. *)
Definition digest_32 (b : list Byte.byte) : list Byte.byte := repeat Byte.x07 32.

Lemma state_parameter_shape_witness :
  String.length (_generate_state_parameter random_40) = 54%nat.
Proof. apply (proj2 (state_parameter_shape random_40)). reflexivity. Defined.

Lemma code_challenge_shape_witness :
  String.length (_create_code_challenge digest_32 "verifier") = 43%nat.
Proof. apply (proj2 (code_challenge_shape digest_32 "verifier")). reflexivity. Defined.

Lemma code_verifier_alphabet_witness :
  Forall (fun c => In c b64_alphabet)
    (chars (match _generate_code_verifier random_64 with Ok v => v | Err _ => "" end)).
Proof. apply (code_verifier_alphabet random_64). vm_compute. reflexivity. Defined.

(** The parse of [example_auth_endpoint]. *)
Definition example_auth_endpoint_parsed : ParseResult :=
  {| scheme := "https"; netloc := "auth.example.com"; path := "/oauth2/authorize";
     params := ""; query := ""; fragment := "" |}.

Lemma init_fresh_pkce_parameters_witness :
  exists c,
    AuthorizationClient_init digest_32 example_platform
      (positional_call "dns:///a" example_auth_endpoint) random_64 random_40 = Ok c /\
    _endpoint c = "dns:///a" /\ _auth_endpoint c = example_auth_endpoint /\
    _token_endpoint c = "https://auth.example.com/oauth2/token" /\
    String.length (_code_verifier c) = 86%nat /\
    _code_challenge c = _create_code_challenge digest_32 (_code_verifier c) /\
    _state c = _generate_state_parameter random_40 /\
    dict_get "state" (_params c) = Some (Some (_state c)) /\
    dict_get "code_challenge" (_params c) = Some (Some (_code_challenge c)) /\
    dict_get "code_challenge_method" (_params c) = Some (Some "S256") /\
    dict_get "response_type" (_params c) = Some (Some "code") /\
    dict_get "code" (_params c) = None /\
    dict_get "grant_type" (_params c) = None /\
    (forall r, ca_endpoint_metadata (positional_call "dns:///a" example_auth_endpoint) = None ->
       urlparse example_platform example_auth_endpoint = Ok r ->
       md_endpoint (_remote c) = hostname r) /\
    (forall m, ca_endpoint_metadata (positional_call "dns:///a" example_auth_endpoint) = Some m ->
       _remote c = m).
Proof.
  apply (init_fresh_pkce_parameters digest_32 example_platform
           (positional_call "dns:///a" example_auth_endpoint)
           random_64 random_40 "dns:///a" example_auth_endpoint
           "https://auth.example.com/oauth2/token").
  - vm_compute. reflexivity.
  - reflexivity.
  - intros _. exists example_auth_endpoint_parsed. vm_compute. reflexivity.
Defined.

(** An [auth_endpoint] with an unmatched bracket. *)
Definition bad_auth_endpoint : string := "http://[abc/x".

Lemma init_rejects_unparsable_auth_endpoint_witness :
  AuthorizationClient_init digest_32 example_platform
    (positional_call "dns:///a" bad_auth_endpoint) random_64 random_40 =
    Err (ValueError "Invalid IPv6 URL") /\
  (forall k, singleton_key (positional_call "dns:///a" bad_auth_endpoint) = Ok k ->
     _instances example_world !! k = None ->
     AuthorizationClient_call digest_32 example_platform example_world
       (positional_call "dns:///a" bad_auth_endpoint) random_64 random_40 =
       (Err (ValueError "Invalid IPv6 URL"), example_world)).
Proof.
  apply (init_rejects_unparsable_auth_endpoint digest_32 example_platform example_world
           (positional_call "dns:///a" bad_auth_endpoint) random_64 random_40
           "dns:///a" bad_auth_endpoint "https://auth.example.com/oauth2/token").
  - vm_compute. reflexivity.
  - reflexivity.
  - vm_compute. reflexivity.
Defined.

Lemma construction_idempotent_witness :
  AuthorizationClient_call digest_32 example_platform
    (snd (AuthorizationClient_call digest_32 example_platform empty_world
            (positional_call "dns:///a" example_auth_endpoint) random_64 random_40))
    (positional_call "dns:///a" example_auth_endpoint) random_40 random_64 =
  (Ok 0%nat, snd (AuthorizationClient_call digest_32 example_platform empty_world
                    (positional_call "dns:///a" example_auth_endpoint) random_64 random_40)).
Proof.
  apply (construction_idempotent digest_32 example_platform empty_world _
           (positional_call "dns:///a" example_auth_endpoint) random_64 random_40).
  vm_compute. reflexivity.
Defined.

Lemma callback_uses_last_code_and_state_witness :
  do_GET example_platform example_server "/callback?code=A&state=S1&code=B" =
  with_server example_server (srv_state example_server) false
    (queue example_server ++ [{| code := "B"; state := "S1" |}])%list
    (responses example_server ++ [HTTP_OK])%list.
Proof.
  apply (callback_uses_last_code_and_state example_platform example_server
           "/callback?code=A&state=S1&code=B"
           {| scheme := ""; netloc := ""; path := "/callback"; params := "";
              query := "code=A&state=S1&code=B"; fragment := "" |});
    vm_compute; reflexivity.
Defined.

Lemma incomplete_callback_blocks_flow_witness :
  get_creds_from_remote example_platform example_client
    ["/callback?error=access_denied&state=S1"; "/callback?code=XYZ&state=S1"] srv_tok =
  (Blocks, example_client, [OpenNewTab example_authorization_url]).
Proof.
  apply (incomplete_callback_blocks_flow example_platform example_client example_server).
  - vm_compute. reflexivity.
  - vm_compute. reflexivity.
  - intros u Hu. right. left. vm_compute in Hu. injection Hu as <-.
    vm_compute. reflexivity.
Defined.

(** The client [c] built with the [redirect_uri] [v]. *)
Definition with_redirect_uri (c : AuthorizationClient) (v : option string)
  : AuthorizationClient :=
  {| _endpoint := _endpoint c; _auth_endpoint := _auth_endpoint c;
     _remote := _remote c; _token_endpoint := _token_endpoint c;
     _client_id := _client_id c; _scopes := _scopes c;
     _redirect_uri := v; _code_verifier := _code_verifier c;
     _code_challenge := _code_challenge c; _state := _state c;
     _verify := _verify c; _headers := _headers c; _params := _params c |}.

(** A port-less redirect URI, and a port out of range. *)
Lemma callback_server_failure_raises_witness :
  get_creds_from_remote example_platform
    (with_redirect_uri example_client (Some "http://localhost/callback"))
    ["/callback?code=XYZ&state=S1"] srv_tok =
  (Raised (TypeError "'NoneType' object cannot be interpreted as an integer"),
   with_redirect_uri example_client (Some "http://localhost/callback"), []) /\
  get_creds_from_remote example_platform
    (with_redirect_uri example_client (Some "http://localhost:99999/callback"))
    ["/callback?code=XYZ&state=S1"] srv_tok =
  (Raised (ValueError "Port out of range 0-65535"),
   with_redirect_uri example_client (Some "http://localhost:99999/callback"), []).
Proof.
  split.
  - destruct (callback_server_failure_raises example_platform
                (with_redirect_uri example_client (Some "http://localhost/callback"))
                ["/callback?code=XYZ&state=S1"] srv_tok) as (_ & _ & _ & _ & H & _).
    apply (H "http://localhost/callback"
             {| scheme := "http"; netloc := "localhost"; path := "/callback"; params := "";
                query := ""; fragment := "" |} "localhost").
    + reflexivity.
    + vm_compute. reflexivity.
    + vm_compute. reflexivity.
    + vm_compute. reflexivity.
  - destruct (callback_server_failure_raises example_platform
                (with_redirect_uri example_client (Some "http://localhost:99999/callback"))
                ["/callback?code=XYZ&state=S1"] srv_tok) as (_ & _ & H & _).
    apply (H "http://localhost:99999/callback"
             {| scheme := "http"; netloc := "localhost:99999"; path := "/callback";
                params := ""; query := ""; fragment := "" |}).
    + reflexivity.
    + vm_compute. reflexivity.
    + vm_compute. reflexivity.
Defined.

(** A token endpoint that rejects every request. *)
Definition srv_400 : token_server :=
  fun _ => {| status_code := 400; content := "invalid_grant"; json_body := [] |}.

Lemma token_exchange_non_200_raises_witness :
  let '(r, c', posts) :=
    _request_access_token example_client {| code := "XYZ"; state := "S1" |} srv_400 in
  exists req, posts = [req] /\ post_url req = _token_endpoint example_client /\
    r = Err (Exception (msg_failed_token (status_code (srv_400 req)) (content (srv_400 req)))) /\
    dict_get "code" (_params c') = Some (Some "XYZ") /\
    dict_get "code_verifier" (_params c') = Some (Some (_code_verifier example_client)) /\
    dict_get "grant_type" (_params c') = Some (Some "authorization_code").
Proof.
  apply (token_exchange_non_200_raises example_client {| code := "XYZ"; state := "S1" |} srv_400).
  - reflexivity.
  - intros req. discriminate.
Defined.

Definition example_credentials : Credentials :=
  {| access_token := PStr "tok"; refresh_token := PStr "r";
     for_endpoint := "dns:///flyte.example.com"; expires_in := PInt 3600 |}.

Lemma refresh_posts_refresh_grant_witness :
  let '(r, posts) := refresh_access_token example_client example_credentials srv_400 in
  exists req, posts = [req] /\ post_url req = _token_endpoint example_client /\
    post_data req = [("grant_type", PStr "refresh_token");
                     ("client_id", py_of_opt (_client_id example_client));
                     ("refresh_token", refresh_token example_credentials)] /\
    post_headers req = _headers example_client /\ post_allow_redirects req = false /\
    post_verify req = _verify example_client /\
    (status_code (srv_400 req) <> 200%Z ->
     r = Err (AccessTokenNotFoundError (msg_refresh_non_200 (status_code (srv_400 req))))) /\
    (status_code (srv_400 req) = 200%Z ->
     r = _credentials_from_response example_client (srv_400 req)).
Proof.
  apply (refresh_posts_refresh_grant example_client example_credentials srv_400).
  discriminate.
Defined.

Lemma state_mismatch_leaves_world_unchanged_witness :
  invoke_request_access_token example_world 0 {| code := "XYZ"; state := "S2" |} srv_tok =
  Some (Err (ValueError (msg_unexpected_state "S2")), [], example_world).
Proof.
  apply (state_mismatch_leaves_world_unchanged example_world 0 example_client).
  - reflexivity.
  - discriminate.
Defined.

Lemma second_exchange_replaces_code_witness :
  let c1 := snd (fst (_request_access_token example_client
                        {| code := "XYZ"; state := "S1" |} srv_400)) in
  let c2 := snd (fst (_request_access_token c1 {| code := "ABC"; state := "S1" |} srv_tok)) in
  map fst (_params c2) = map fst (_params c1) /\
  dict_get "code" (_params c2) = Some (Some "ABC").
Proof. apply second_exchange_replaces_code; reflexivity. Defined.

Lemma scopes_joined_verbatim_witness :
  scope_param ["openid"; "offline"; "all"] = String.concat " " ["openid"; "offline"; "all"].
Proof. apply scopes_joined_verbatim. reflexivity. Defined.

(** A token endpoint that grants an access token, a refresh token and
    an expiry. *)
Definition srv_grant : token_server :=
  fun _ => {| status_code := 200; content := "";
              json_body := [("access_token", PStr "tok"); ("refresh_token", PStr "r");
                            ("expires_in", PInt 3600)] |}.

Lemma successful_flow_returns_credentials_witness :
  exists cr req,
    fst (fst (get_creds_from_remote example_platform example_client
                ["/callback?code=XYZ&state=S1"] srv_grant)) = Returned cr /\
    snd (get_creds_from_remote example_platform example_client
           ["/callback?code=XYZ&state=S1"] srv_grant) =
      [OpenNewTab example_authorization_url; Post req] /\
    access_token cr = PStr "tok" /\ expires_in cr = PInt 3600 /\
    for_endpoint cr = _endpoint example_client /\
    dict_get "code" (post_data req) = Some (PStr "XYZ").
Proof.
  apply (successful_flow_returns_credentials example_platform example_client example_server
           example_authorization_url "/callback?code=XYZ&state=S1"
           {| scheme := ""; netloc := ""; path := "/callback"; params := "";
              query := "code=XYZ&state=S1"; fragment := "" |} "XYZ" [] srv_grant).
  - vm_compute. reflexivity.
  - vm_compute. reflexivity.
  - vm_compute. reflexivity.
  - vm_compute. reflexivity.
  - vm_compute. reflexivity.
  - vm_compute. reflexivity.
  - intros req. split; [|split]; reflexivity.
Defined.
